(** * LineageAI front-end assets: copy affordances, structural-change
      watcher, bootstrap retry and scroll policy.

    The development embeds three scripts of the repository:

    - the copy-button script in its icon revision ([IconVariant]:
      selector [.highlight-container pre, .tool-call-accordion pre],
      a button holding an [<i>] icon, bounded retry at start-up);
    - the copy-button script in its text revision ([TextVariant]:
      selector [.highlight pre], a button labelled [Copy]);
    - the scroll-handling script ([Scroll]).

    The document is a finite tree of elements and text nodes.  An element
    handle (a JavaScript object reference) is the path of child indices
    that leads from the root to the element: the scripts only ever append
    a child at the end of an element or replace the children of a button
    they created, so the path of every existing element is stable.

    [innerText] is taken to be the concatenation of the text nodes below
    an element in document order (no CSS-hidden content, no line breaks
    introduced by layout).  Inline styles ([style.position]) are not part
    of the tree. *)

From Stdlib Require Import ZArith Lia Bool.
From stdpp Require Import base strings list.

Open Scope string_scope.
Open Scope list_scope.

(** ** The document tree *)

Module Dom.

Unset Elimination Schemes.
Inductive node : Type :=
| Text (data : string)
| Elem (tag : string) (id : string) (classes : list string)
       (children : list node).
Set Elimination Schemes.

Section node_induction.
Variable P : node -> Prop.
Hypothesis P_text : forall s, P (Text s).
Hypothesis P_elem : forall t i c ch, Forall P ch -> P (Elem t i c ch).

Fixpoint node_ind (n : node) : P n :=
  match n with
  | Text s => P_text s
  | Elem t i c ch =>
      P_elem t i c ch
        ((fix all (l : list node) : Forall P l :=
            match l with
            | [] => @List.Forall_nil _ P
            | x :: xs => @List.Forall_cons _ P x xs (node_ind x) (all xs)
            end) ch)
  end.
End node_induction.

(** A handle on an element: child indices from the root. *)
Definition path := list nat.

Definition childNodes (n : node) : list node :=
  match n with
  | Text _ => []
  | Elem _ _ _ ch => ch
  end.

Definition hasClass (c : string) (n : node) : bool :=
  match n with
  | Text _ => false
  | Elem _ _ cs _ => existsb (String.eqb c) cs
  end.

Definition hasTag (t : string) (n : node) : bool :=
  match n with
  | Text _ => false
  | Elem t' _ _ _ => String.eqb t t'
  end.

Definition hasId (i : string) (n : node) : bool :=
  match n with
  | Text _ => false
  | Elem _ i' _ _ => String.eqb i i'
  end.

(** [element.innerText] (read). *)
Fixpoint innerText (n : node) : string :=
  match n with
  | Text s => s
  | Elem _ _ _ ch =>
      (fix cat (l : list node) : string :=
         match l with
         | [] => ""
         | x :: xs => innerText x +:+ cat xs
         end) ch
  end.

Fixpoint innerTexts (l : list node) : string :=
  match l with
  | [] => ""
  | x :: xs => innerText x +:+ innerTexts xs
  end.

(** [element.querySelector(sel)]: the first proper descendant, in document
    order, that satisfies the simple selector [m]. *)
Fixpoint querySelector (m : node -> bool) (n : node) : option node :=
  match n with
  | Text _ => None
  | Elem _ _ _ ch =>
      (fix first (l : list node) : option node :=
         match l with
         | [] => None
         | x :: xs =>
             if m x then Some x
             else match querySelector m x with
                  | Some r => Some r
                  | None => first xs
                  end
         end) ch
  end.

Fixpoint querySelectorIn (m : node -> bool) (l : list node) : option node :=
  match l with
  | [] => None
  | x :: xs =>
      if m x then Some x
      else match querySelector m x with
           | Some r => Some r
           | None => querySelectorIn m xs
           end
  end.

(** The element reached by a handle, if the handle is valid. *)
Fixpoint get (n : node) (p : path) {struct p} : option node :=
  match p with
  | [] => Some n
  | i :: q =>
      match childNodes n !! i with
      | Some c => get c q
      | None => None
      end
  end.

(** In-place mutation of the element behind a handle. *)
Fixpoint mutate (f : node -> node) (n : node) (p : path) {struct p} : node :=
  match p with
  | [] => f n
  | i :: q =>
      match n with
      | Text _ => n
      | Elem t id c ch => Elem t id c (alter (fun x => mutate f x q) i ch)
      end
  end.

(** [parent.appendChild(child)]. *)
Definition appendChild (child : node) (parent : node) : node :=
  match parent with
  | Text _ => parent
  | Elem t i c ch => Elem t i c (ch ++ [child])
  end.

(** [element.replaceChildren(child)]. *)
Definition replaceChildren (child : node) (e : node) : node :=
  match e with
  | Text _ => e
  | Elem t i c _ => Elem t i c [child]
  end.

(** [element.innerText = s] (write). *)
Definition setInnerText (s : string) (e : node) : node :=
  match e with
  | Text _ => e
  | Elem t i c _ => Elem t i c [Text s]
  end.

Definition carriesOneOf (cs : list string) (n : node) : bool :=
  existsb (fun c => hasClass c n) cs.

(** [document.querySelectorAll('.c1 pre, .c2 pre, ...')]: the handles of the
    elements with tag [pre] that have a proper ancestor carrying one of the
    classes [cs], in document order.  [anc] tells whether such an ancestor
    has been passed on the way down. *)
Fixpoint preUnder (cs : list string) (anc : bool) (n : node) : list path :=
  match n with
  | Text _ => []
  | Elem t _ _ ch =>
      (if anc && String.eqb "pre" t then [[]] else []) ++
      (fix each (k : nat) (l : list node) : list path :=
         match l with
         | [] => []
         | x :: xs =>
             map (cons k) (preUnder cs (anc || carriesOneOf cs n) x)
               ++ each (S k) xs
         end) 0 ch
  end.

Fixpoint preUnderEach (cs : list string) (anc : bool) (k : nat)
    (l : list node) : list path :=
  match l with
  | [] => []
  | x :: xs => map (cons k) (preUnder cs anc x) ++ preUnderEach cs anc (S k) xs
  end.

(** [document.getElementById(i)]: the first element with that id. *)
Definition getElementById (i : string) (doc : node) : option node :=
  if hasId i doc then Some doc else querySelector (hasId i) doc.

End Dom.

(** ** What a handler asks of the host *)

Module Host.

Inductive effect (task : Type) : Type :=
| ClipboardWrite (text : string)      (* navigator.clipboard.writeText(text) *)
| ConsoleError (message : string)     (* console.error(message, ...) *)
| SetTimeout (callback : task) (ms : nat).
Arguments ClipboardWrite {task} text.
Arguments ConsoleError {task} message.
Arguments SetTimeout {task} callback ms.

(** How a clipboard write settles. *)
Inductive outcome := fulfilled | rejected.

(** The presentation of a copy control. *)
Inductive AffordanceState := idle | success | error.

(** One record of a batch handed to a [MutationObserver] callback. *)
Record MutationRecord := {
  type : string;
  addedNodes : list Dom.node;
  removedNodes : list Dom.node
}.

End Host.

(** ** The affordance injector, generic in the selector and in the control

    Both revisions of the copy-button script run the same loop:
    [document.querySelectorAll(sel).forEach(function(preElement) {...})]
    computes the handles once and then visits them in document order; the
    body returns early when [preElement.querySelector('.copy-code-button')]
    is truthy and otherwise appends a freshly built button. *)

Module Injector.
Import Dom Host.

Definition isCopyButton : node -> bool := hasClass "copy-code-button".

(** Truthiness of [preElement.querySelector('.copy-code-button')]. *)
Definition hasCopyButton (preElement : node) : bool :=
  match querySelector isCopyButton preElement with
  | Some _ => true
  | None => false
  end.

(** The controls attached to a block: its children that are copy buttons. *)
Definition affordances (preElement : node) : list node :=
  List.filter isCopyButton (childNodes preElement).

(** How many controls the block behind a handle carries. *)
Definition affordanceCount (doc : node) (block : path) : option nat :=
  (fun pre => length (affordances pre)) <$> get doc block.

Section injector.
Variable containers : list string.
Variable button : node.

(** One iteration of the [forEach] body on the live document. *)
Definition attach (doc : node) (preElement : path) : node :=
  match get doc preElement with
  | None => doc
  | Some pre =>
      if hasCopyButton pre then doc
      else mutate (appendChild button) doc preElement
  end.

Definition codeBlocks (doc : node) : list path :=
  preUnder containers false doc.

Definition addCopyButtons (doc : node) : node :=
  fold_left attach (codeBlocks doc) doc.

(** The [MutationObserver] callback, the same text in both revisions:
    [mutations.forEach(function(mutation) { if (mutation.type ===
    'childList' && mutation.addedNodes.length > 0) addCopyButtons(); })].
    The second component counts the calls of [addCopyButtons] made while
    the batch is processed. *)
Definition qualifies (mutation : MutationRecord) : bool :=
  String.eqb (type mutation) "childList"
  && (0 <? length (addedNodes mutation))%nat.

Definition onMutations (mutations : list MutationRecord) (doc : node)
  : node * nat :=
  fold_left
    (fun (st : node * nat) mutation =>
       if qualifies mutation then (addCopyButtons (fst st), S (snd st))
       else st)
    mutations (doc, 0).

(** The same result, computed by one descent through the tree.  This is
    not how the script is written; [InjectorFacts.addCopyButtons_injected]
    shows that the loop over handles computes it. *)
Fixpoint injected (anc : bool) (n : node) : node :=
  match n with
  | Text _ => n
  | Elem t i c ch =>
      let ch' := List.map (injected (anc || carriesOneOf containers n)) ch in
      Elem t i c
        (if anc && String.eqb "pre" t && negb (hasCopyButton n)
         then ch' ++ [button] else ch')
  end.

(** [N] scans in a row of a document the host leaves alone. *)
Definition scans (N : nat) (doc : node) : node :=
  Nat.iter N addCopyButtons doc.

(** [after] is what a scan makes of [before], the result of a lookup. *)
Definition scanOf (before after : option node) : Prop :=
  match before with
  | Some r => exists a, after = Some (injected a r)
  | None => after = None
  end.

End injector.
End Injector.

(** ** The copy-button script, icon revision *)

Module IconVariant.
Import Dom Host.

(** The callbacks the script hands to [setTimeout]. *)
Inductive task :=
| RestoreCopyIcon (button : path)   (* button.replaceChildren(copyIcon) *)
| InitializeObserver.

Definition containers : list string :=
  ["highlight-container"; "tool-call-accordion"].

Definition copyIcon : node := Elem "i" "" ["bi"; "bi-clipboard"] [].
Definition checkIcon : node := Elem "i" "" ["bi"; "bi-check-lg"] [].

(** The button as it is when it is appended to the block. *)
Definition button : node := Elem "button" "" ["copy-code-button"] [copyIcon].

Definition codeBlocks : node -> list path := Injector.codeBlocks containers.

Definition addCopyButtons : node -> node :=
  Injector.addCopyButtons containers button.

Definition scans : nat -> node -> node := Injector.scans containers button.

(** The click listener; [preElement] is the block captured by the closure,
    read when the click happens. *)
Definition onClick (preElement : node) : list (effect task) :=
  let codeElement := querySelector (hasTag "code") preElement in
  let textToCopy :=
    match codeElement with
    | Some code => innerText code
    | None => ""
    end in
  [ClipboardWrite textToCopy].

(** Activating the control bound to the block behind [preElement]. *)
Definition activate (doc : node) (preElement : path)
  : option (list (effect task)) :=
  onClick <$> get doc preElement.

(** The continuations of the clipboard promise; [button] is the handle of
    the control captured by the closure. *)
Definition onFulfilled (doc : node) (button : path)
  : node * list (effect task) :=
  (mutate (replaceChildren checkIcon) doc button,
   [SetTimeout (RestoreCopyIcon button) 2000]).

Definition onRejected (doc : node) (button : path)
  : node * list (effect task) :=
  (doc, [ConsoleError "Failed to copy text: "]).

Definition settle (o : outcome) (doc : node) (button : path)
  : node * list (effect task) :=
  match o with
  | fulfilled => onFulfilled doc button
  | rejected => onRejected doc button
  end.

Definition restoreCopyIcon (doc : node) (button : path) : node :=
  mutate (replaceChildren copyIcon) doc button.

(** What the control shows. *)
Definition affordanceState (button : node) : option AffordanceState :=
  match childNodes button with
  | [icon] =>
      if hasClass "bi-clipboard" icon then Some idle
      else if hasClass "bi-check-lg" icon then Some success
      else None
  | _ => None
  end.

Definition onMutations : list MutationRecord -> node -> node * nat :=
  Injector.onMutations containers button.

(** *** Start-up *)

Definition maxRetries : nat := 20.

Definition terminalError : string :=
  "Failed to find targetNode ('chat-history') after multiple retries.".

Record Script := {
  document : node;
  retries : nat;
  observing : bool     (* observer.observe(targetNode, ...) has been called *)
}.

Definition initializeObserver (s : Script) : Script * list (effect task) :=
  match getElementById "chat-history" (document s) with
  | Some targetNode =>
      ({| document := addCopyButtons (document s);
          retries := retries s;
          observing := true |}, [])
  | None =>
      let retries' := S (retries s) in
      let s' := {| document := document s;
                   retries := retries';
                   observing := observing s |} in
      if (retries' <? maxRetries)%nat
      then (s', [SetTimeout InitializeObserver 100])
      else (s', [ConsoleError terminalError])
  end.

(** The host's event loop, as far as start-up needs it: a clock in
    milliseconds, the pending timers with the time they are due, the
    console, and the times at which [initializeObserver] ran.  A timer
    fires when it is due or later: [lag k] is the delay of the timer that
    starts the attempt after the [k]-th.  [documentAt k] is the document
    the host shows to that attempt. *)
Record Env := {
  documentAt : nat -> node;
  lag : nat -> nat
}.

Record Loop := {
  script : Script;
  clock : nat;
  timers : list (nat * task);
  attempts : list nat;
  console : list string
}.

Definition perform (l : Loop) (e : effect task) : Loop :=
  match e with
  | ClipboardWrite _ => l
  | ConsoleError message =>
      {| script := script l; clock := clock l; timers := timers l;
         attempts := attempts l; console := console l ++ [message] |}
  | SetTimeout callback ms =>
      {| script := script l; clock := clock l;
         timers := timers l ++ [(clock l + ms, callback)];
         attempts := attempts l; console := console l |}
  end.

Definition runTask (env : Env) (t : task) (l : Loop) : Loop :=
  match t with
  | InitializeObserver =>
      let seen := {| document := documentAt env (length (attempts l));
                     retries := retries (script l);
                     observing := observing (script l) |} in
      let '(s', effects) := initializeObserver seen in
      fold_left perform effects
        {| script := s'; clock := clock l; timers := timers l;
           attempts := attempts l ++ [clock l]; console := console l |}
  | RestoreCopyIcon b =>
      {| script := {| document := restoreCopyIcon (document (script l)) b;
                      retries := retries (script l);
                      observing := observing (script l) |};
         clock := clock l; timers := timers l;
         attempts := attempts l; console := console l |}
  end.

(** The pending timer that is due first (the oldest one among equals). *)
Fixpoint nextTimer (q : list (nat * task))
  : option ((nat * task) * list (nat * task)) :=
  match q with
  | [] => None
  | x :: rest =>
      match nextTimer rest with
      | Some (y, rest') =>
          if (fst y <? fst x)%nat then Some (y, x :: rest') else Some (x, rest)
      | None => Some (x, rest)
      end
  end.

Fixpoint run (fuel : nat) (env : Env) (l : Loop) : Loop :=
  match fuel with
  | 0 => l
  | S fuel' =>
      match nextTimer (timers l) with
      | None => l
      | Some ((due, t), rest) =>
          let now := Nat.max (clock l) due + lag env (length (attempts l)) in
          run fuel' env
            (runTask env t
               {| script := script l; clock := now; timers := rest;
                  attempts := attempts l; console := console l |})
      end
  end.

(** [window.addEventListener('DOMContentLoaded', initializeObserver)]: the
    first attempt runs when the host signals that the page is ready. *)
Definition boot (env : Env) (ready : nat) : Loop :=
  runTask env InitializeObserver
    {| script := {| document := documentAt env 0; retries := 0;
                    observing := false |};
       clock := ready; timers := []; attempts := []; console := [] |}.

(** Consecutive entries are at least [d] apart. *)
Definition spaced (d : nat) (times : list nat) : Prop :=
  forall i a b, times !! i = Some a -> times !! (S i) = Some b -> a + d <= b.

(** [j] attempts have failed and the next one is scheduled. *)
Definition pendingRetry (j : nat) (l : Loop) : Prop :=
  retries (script l) = j
  /\ observing (script l) = false
  /\ length (attempts l) = j
  /\ console l = []
  /\ spaced 100 (attempts l)
  /\ last (attempts l) = Some (clock l)
  /\ timers l = [(clock l + 100, InitializeObserver)].

(** The budget is used up: the error is logged and nothing is scheduled. *)
Definition givenUp (l : Loop) : Prop :=
  retries (script l) = maxRetries
  /\ observing (script l) = false
  /\ length (attempts l) = maxRetries
  /\ console l = [terminalError]
  /\ spaced 100 (attempts l)
  /\ last (attempts l) = Some (clock l)
  /\ timers l = [].

(** The container is absent whenever the script looks for it. *)
Definition neverPresent (env : Env) : Prop :=
  forall k, getElementById "chat-history" (documentAt env k) = None.

End IconVariant.

(** ** The copy-button script, text revision *)

Module TextVariant.
Import Dom Host.

Inductive task :=
| RestoreLabel (button : path).      (* button.innerText = 'Copy' *)

Definition containers : list string := ["highlight"].

(** The button as it is when it is appended to the block. *)
Definition button : node :=
  Elem "button" "" ["copy-code-button"] [Text "Copy"].

Definition codeBlocks : node -> list path := Injector.codeBlocks containers.

Definition addCopyButtons : node -> node :=
  Injector.addCopyButtons containers button.

Definition scans : nat -> node -> node := Injector.scans containers button.

(** The click listener; [preElement] is the block captured by the closure,
    read when the click happens. *)
Definition onClick (preElement : node) : list (effect task) :=
  let textToCopy := innerText preElement in
  [ClipboardWrite textToCopy].

Definition activate (doc : node) (preElement : path)
  : option (list (effect task)) :=
  onClick <$> get doc preElement.

Definition onFulfilled (doc : node) (button : path)
  : node * list (effect task) :=
  (mutate (setInnerText "Copied!") doc button,
   [SetTimeout (RestoreLabel button) 2000]).

Definition onRejected (doc : node) (button : path)
  : node * list (effect task) :=
  (mutate (setInnerText "Error!") doc button,
   [ConsoleError "Failed to copy text: ";
    SetTimeout (RestoreLabel button) 2000]).

Definition settle (o : outcome) (doc : node) (button : path)
  : node * list (effect task) :=
  match o with
  | fulfilled => onFulfilled doc button
  | rejected => onRejected doc button
  end.

Definition restoreLabel (doc : node) (button : path) : node :=
  mutate (setInnerText "Copy") doc button.

Definition runTask (t : task) (doc : node) : node :=
  match t with
  | RestoreLabel b => restoreLabel doc b
  end.

(** What the control shows. *)
Definition affordanceState (button : node) : option AffordanceState :=
  let label := innerText button in
  if String.eqb label "Copy" then Some idle
  else if String.eqb label "Copied!" then Some success
  else if String.eqb label "Error!" then Some error
  else None.

Definition onMutations : list MutationRecord -> node -> node * nat :=
  Injector.onMutations containers button.

(** [window.addEventListener('load', ...)]: one look for the container,
    no retry.  The flag tells whether the observer was started. *)
Definition onLoad (doc : node) : node * bool :=
  match getElementById "chat-history" doc with
  | Some targetNode => (addCopyButtons doc, true)
  | None => (doc, false)
  end.

End TextVariant.

(** ** The scroll-handling script

    Scroll geometry is in whole CSS pixels.  The page holds the two
    elements the script looks up; once present they stay the same
    elements.  Every call of [setupScrollHandling] that gets past its guard
    creates one closure; the closure is known by its number, which indexes
    its [userIsAtBottom] flag and names its listeners.  The height of the
    viewport does not change. *)

Module Scroll.

Open Scope Z_scope.

Inductive ScrollBehavior := auto | smooth.

Record ScrollToOptions := { top : Z; behavior : ScrollBehavior }.

(** The element with id [chat-history]. *)
Record ChatHistory := {
  attributes : list string;
  scrollHeight : Z;
  scrollTop : Z;
  clientHeight : Z;
  scrollListeners : list nat;
  mutationObservers : list nat
}.

(** The element with id [scroll-to-bottom-btn]. *)
Record JumpButton := {
  btnAttributes : list string;
  display : string;
  clickListeners : list nat
}.

Record Page := {
  chatHistoryEl : option ChatHistory;
  scrollToBottomBtn : option JumpButton;
  userIsAtBottom : list bool;
  timeouts : list (nat * nat);            (* closure, delay in ms *)
  scrollCalls : list ScrollToOptions      (* calls of scrollTo, oldest first *)
}.

Definition hasAttribute (a : string) (e : ChatHistory) : bool :=
  existsb (String.eqb a) (attributes e).

Definition withScrollTop (t : Z) (e : ChatHistory) : ChatHistory :=
  {| attributes := attributes e; scrollHeight := scrollHeight e;
     scrollTop := t; clientHeight := clientHeight e;
     scrollListeners := scrollListeners e;
     mutationObservers := mutationObservers e |}.

(** The largest scroll offset the host accepts for the element. *)
Definition maxScrollTop (e : ChatHistory) : Z :=
  Z.max 0 (scrollHeight e - clientHeight e).

(** The host's [element.scrollTo(options)]: the requested offset is clamped
    to the scrollable range; with behavior [auto] the position changes at
    once, with [smooth] an animation starts and the position changes
    later, announced by scroll events. *)
Definition scrollTo (o : ScrollToOptions) (e : ChatHistory) : ChatHistory :=
  match behavior o with
  | auto => withScrollTop (Z.max 0 (Z.min (top o) (maxScrollTop e))) e
  | smooth => e
  end.

Definition isScrolledToBottom (chatHistoryEl : ChatHistory) : bool :=
  let threshold := 5 in
  scrollHeight chatHistoryEl - scrollTop chatHistoryEl
    - clientHeight chatHistoryEl <=? threshold.

Definition scrollToBottom (b : ScrollBehavior) (p : Page) : Page :=
  match chatHistoryEl p with
  | Some chat =>
      let o := {| top := scrollHeight chat; behavior := b |} in
      {| chatHistoryEl := Some (scrollTo o chat);
         scrollToBottomBtn := scrollToBottomBtn p;
         userIsAtBottom := userIsAtBottom p;
         timeouts := timeouts p;
         scrollCalls := scrollCalls p ++ [o] |}
  | None => p
  end.

(** [scrollToBottomBtn.style.display = d]. *)
Definition setDisplay (d : string) (p : Page) : Page :=
  match scrollToBottomBtn p with
  | Some btn =>
      {| chatHistoryEl := chatHistoryEl p;
         scrollToBottomBtn :=
           Some {| btnAttributes := btnAttributes btn; display := d;
                   clickListeners := clickListeners btn |};
         userIsAtBottom := userIsAtBottom p;
         timeouts := timeouts p;
         scrollCalls := scrollCalls p |}
  | None => p
  end.

(** [userIsAtBottom = b] in closure [k].  A closure that runs has been
    created, so [k] is below the number of flags. *)
Definition setFlag (k : nat) (b : bool) (p : Page) : Page :=
  {| chatHistoryEl := chatHistoryEl p;
     scrollToBottomBtn := scrollToBottomBtn p;
     userIsAtBottom := <[k := b]> (userIsAtBottom p);
     timeouts := timeouts p;
     scrollCalls := scrollCalls p |}.

(** The scroll listener of closure [k]. *)
Definition onScroll (k : nat) (p : Page) : Page :=
  match chatHistoryEl p with
  | Some chat =>
      let atBottom := isScrolledToBottom chat in
      let p' := setFlag k atBottom p in
      if atBottom then setDisplay "none" p'
      else if scrollHeight chat >? clientHeight chat
           then setDisplay "block" p'
           else p'
  | None => p
  end.

(** The click listener of closure [k] on the jump button. *)
Definition onClick (k : nat) (p : Page) : Page :=
  scrollToBottom smooth p.

(** The [MutationObserver] callback of closure [k]. *)
Definition onMutations (k : nat) (p : Page) : Page :=
  match userIsAtBottom p !! k with
  | Some true => scrollToBottom auto p
  | _ => p
  end.

(** The callback closure [k] handed to [setTimeout]. *)
Definition onTimeout (k : nat) (p : Page) : Page :=
  scrollToBottom auto p.

Definition setupScrollHandling (p : Page) : Page :=
  match chatHistoryEl p, scrollToBottomBtn p with
  | Some chat, Some btn =>
      if hasAttribute "data-scroll-handler" chat then p
      else
        let k := length (userIsAtBottom p) in
        {| chatHistoryEl :=
             Some {| attributes := attributes chat ++ ["data-scroll-handler"];
                     scrollHeight := scrollHeight chat;
                     scrollTop := scrollTop chat;
                     clientHeight := clientHeight chat;
                     scrollListeners := scrollListeners chat ++ [k];
                     mutationObservers := mutationObservers chat ++ [k] |};
           scrollToBottomBtn :=
             Some {| btnAttributes := btnAttributes btn;
                     display := display btn;
                     clickListeners := clickListeners btn ++ [k] |};
           userIsAtBottom := userIsAtBottom p ++ [true];
           timeouts := timeouts p ++ [(k, 200%nat)];
           scrollCalls := scrollCalls p |}
  | _, _ => p
  end.

(** What the host delivers after start-up. *)
Inductive event :=
| Scrolled (newTop : Z)
    (* the position is now [newTop]; a scroll event is dispatched *)
| ContentChanged (newHeight newTop : Z)
    (* a batch of structural changes below the container, after which the
       content is [newHeight] high and the position is [newTop] *)
| BodyChanged
    (* a batch of structural changes elsewhere below [document.body] *)
| JumpClicked
| TimeoutElapsed (k : nat).

Definition withGeometry (h t : Z) (p : Page) : Page :=
  match chatHistoryEl p with
  | Some chat =>
      {| chatHistoryEl :=
           Some {| attributes := attributes chat;
                   scrollHeight := h; scrollTop := t;
                   clientHeight := clientHeight chat;
                   scrollListeners := scrollListeners chat;
                   mutationObservers := mutationObservers chat |};
         scrollToBottomBtn := scrollToBottomBtn p;
         userIsAtBottom := userIsAtBottom p;
         timeouts := timeouts p;
         scrollCalls := scrollCalls p |}
  | None => p
  end.

Definition currentHeight (p : Page) : Z :=
  match chatHistoryEl p with
  | Some chat => scrollHeight chat
  | None => 0
  end.

Definition listenersOf {E} (get : E -> list nat) (e : option E) : list nat :=
  match e with
  | Some x => get x
  | None => []
  end.

Definition dropTimeout (k : nat) (p : Page) : Page :=
  {| chatHistoryEl := chatHistoryEl p;
     scrollToBottomBtn := scrollToBottomBtn p;
     userIsAtBottom := userIsAtBottom p;
     timeouts := List.filter (fun kd => negb (Nat.eqb (fst kd) k)) (timeouts p);
     scrollCalls := scrollCalls p |}.

(** One turn of the event loop.  Listeners run in the order they were
    registered; the document-wide observer, created after the first call
    of [setupScrollHandling], calls it again on every batch below
    [document.body]. *)
Definition step (p : Page) (e : event) : Page :=
  match e with
  | Scrolled t =>
      let p1 := withGeometry (currentHeight p) t p in
      fold_left (fun q k => onScroll k q)
        (listenersOf scrollListeners (chatHistoryEl p1)) p1
  | ContentChanged h t =>
      let p1 := withGeometry h t p in
      setupScrollHandling
        (fold_left (fun q k => onMutations k q)
           (listenersOf mutationObservers (chatHistoryEl p1)) p1)
  | BodyChanged => setupScrollHandling p
  | JumpClicked =>
      fold_left (fun q k => onClick k q)
        (listenersOf clickListeners (scrollToBottomBtn p)) p
  | TimeoutElapsed k =>
      if existsb (fun kd => Nat.eqb (fst kd) k) (timeouts p)
      then onTimeout k (dropTimeout k p)
      else p
  end.

Definition run (events : list event) (p : Page) : Page :=
  fold_left step events p.

(** What the script wired up and the height of the viewport: the parts of
    a page that no handler and no event of this model changes once the
    marker is set. *)
Definition wiring (p : Page)
  : option (list string * list nat * list nat * Z)
    * option (list string * list nat) :=
  (option_map
     (fun c => (attributes c, scrollListeners c, mutationObservers c,
                clientHeight c))
     (chatHistoryEl p),
   option_map (fun b => (btnAttributes b, clickListeners b))
     (scrollToBottomBtn p)).

Definition contentHeight (p : Page) : option Z :=
  option_map scrollHeight (chatHistoryEl p).

Definition position (p : Page) : option Z :=
  option_map scrollTop (chatHistoryEl p).

Definition marked (p : Page) : bool :=
  match chatHistoryEl p with
  | Some chat => hasAttribute "data-scroll-handler" chat
  | None => false
  end.

(** Not a scroll event. *)
Definition quiet (e : event) : bool :=
  match e with
  | Scrolled _ => false
  | _ => true
  end.

End Scroll.

(** ** Sample documents and batches *)

Module Samples.
Import Dom Host.

(** [<body><div class="highlight-container"><pre><code>print(1)</code></pre></div></body>] *)
Definition highlighted : node :=
  Elem "body" "" []
    [Elem "div" "" ["highlight-container"]
       [Elem "pre" "" [] [Elem "code" "" [] [Text "print(1)"]]]].

(** [<body><div class="tool-call-accordion"><pre>print(1)</pre></div></body>] *)
Definition toolCall : node :=
  Elem "body" "" []
    [Elem "div" "" ["tool-call-accordion"]
       [Elem "pre" "" [] [Text "print(1)"]]].

(** [<body><div class="highlight"><pre><code>print(1)</code></pre></div></body>] *)
Definition highlightedText : node :=
  Elem "body" "" []
    [Elem "div" "" ["highlight"]
       [Elem "pre" "" [] [Elem "code" "" [] [Text "print(1)"]]]].

(** Two messages appended in one turn of the event loop: the observer's
    callback receives one batch of two records. *)
Definition message : node := Elem "div" "" ["message"] [].

Definition twoInsertions : list MutationRecord :=
  [ {| type := "childList"; addedNodes := [message]; removedNodes := [] |};
    {| type := "childList"; addedNodes := [message]; removedNodes := [] |} ].

(** A viewport 500 px high over 1000 px of content, with one closure
    installed. *)
Definition chatAt (top : Z) : Scroll.ChatHistory :=
  {| Scroll.attributes := ["id"; "data-scroll-handler"];
     Scroll.scrollHeight := 1000;
     Scroll.scrollTop := top;
     Scroll.clientHeight := 500;
     Scroll.scrollListeners := [0];
     Scroll.mutationObservers := [0] |}.

Definition pageAt (top : Z) (atBottom : bool) : Scroll.Page :=
  {| Scroll.chatHistoryEl := Some (chatAt top);
     Scroll.scrollToBottomBtn :=
       Some {| Scroll.btnAttributes := ["id"]; Scroll.display := "none";
               Scroll.clickListeners := [0] |};
     Scroll.userIsAtBottom := [atBottom];
     Scroll.timeouts := [];
     Scroll.scrollCalls := [] |}.

(** The page as the host built it: both elements present, nothing wired
    up yet, the viewer looking at the top of the transcript. *)
Definition freshPage : Scroll.Page :=
  {| Scroll.chatHistoryEl :=
       Some {| Scroll.attributes := ["id"];
               Scroll.scrollHeight := 1000;
               Scroll.scrollTop := 0;
               Scroll.clientHeight := 500;
               Scroll.scrollListeners := [];
               Scroll.mutationObservers := [] |};
     Scroll.scrollToBottomBtn :=
       Some {| Scroll.btnAttributes := ["id"]; Scroll.display := "none";
               Scroll.clickListeners := [] |};
     Scroll.userIsAtBottom := [];
     Scroll.timeouts := [];
     Scroll.scrollCalls := [] |}.

End Samples.

(** ** What the scroll listener does to the jump button *)

Module ScrollView.
Import Scroll.

Open Scope Z_scope.

(** [scrollToBottomBtn.style.display], if the button is there. *)
Definition displayOf (p : Page) : option string :=
  option_map display (scrollToBottomBtn p).

(** What one scroll listener makes of the display of the button. *)
Definition shown (c : ChatHistory) (d : string) : string :=
  if isScrolledToBottom c then "none"
  else if scrollHeight c >? clientHeight c then "block"
  else d.

(** The [smooth] request a click listener of the jump button makes. *)
Definition jumpRequest (c : ChatHistory) : ScrollToOptions :=
  {| top := scrollHeight c; behavior := smooth |}.

End ScrollView.

(** ** The textarea script

    The page holds the two elements the script looks up, the textarea
    with id [user-input] and the button with id [send-btn]; once present
    they stay the same elements.  A listener is known by what its closure
    captured: for a keydown listener whether [sendButton] was an element or
    [null] when the listener was registered, for a click listener on the
    button whether [textarea] was.  [style.height] is kept in structured
    form: [auto], or a number of pixels. *)

Module Textarea.

Open Scope Z_scope.

Inductive CssHeight := unset | auto | px (n : Z).

Record TextareaEl := {
  attributes : list string;
  height : CssHeight;
  contentHeight : Z;             (* scrollHeight while the height is auto *)
  inputListeners : nat;
  keydownListeners : list bool
}.

Record SendButton := {
  btnAttributes : list string;
  clickListeners : list bool
}.

Record Page := {
  textarea : option TextareaEl;
  sendButton : option SendButton;
  timeouts : list (bool * nat);  (* captured textarea?, delay in ms *)
  prevented : nat;               (* calls of e.preventDefault() *)
  clicks : nat                   (* calls of sendButton.click() *)
}.

Definition hasMarker (m : string) (attrs : list string) : bool :=
  existsb (String.eqb m) attrs.

Definition isSome {A} (o : option A) : bool :=
  match o with
  | Some _ => true
  | None => false
  end.

Definition setupEventListeners (p : Page) : Page :=
  let textareaFound := isSome (textarea p) in
  let sendButtonFound := isSome (sendButton p) in
  {| textarea :=
       match textarea p with
       | Some ta =>
           if hasMarker "data-textarea-listeners" (attributes ta) then Some ta
           else
             Some {| attributes := attributes ta ++ ["data-textarea-listeners"];
                     height := height ta;
                     contentHeight := contentHeight ta;
                     inputListeners := S (inputListeners ta);
                     keydownListeners :=
                       keydownListeners ta ++ [sendButtonFound] |}
       | None => None
       end;
     sendButton :=
       match sendButton p with
       | Some b =>
           if hasMarker "data-send-button-listener" (btnAttributes b)
           then Some b
           else
             Some {| btnAttributes :=
                       btnAttributes b ++ ["data-send-button-listener"];
                     clickListeners := clickListeners b ++ [textareaFound] |}
       | None => None
       end;
     timeouts := timeouts p;
     prevented := prevented p;
     clicks := clicks p |}.

Definition withHeight (h : CssHeight) (p : Page) : Page :=
  match textarea p with
  | Some ta =>
      {| textarea :=
           Some {| attributes := attributes ta; height := h;
                   contentHeight := contentHeight ta;
                   inputListeners := inputListeners ta;
                   keydownListeners := keydownListeners ta |};
         sendButton := sendButton p; timeouts := timeouts p;
         prevented := prevented p; clicks := clicks p |}
  | None => p
  end.

(** The input listener: [this.style.height = 'auto'] and then
    [this.style.height = (this.scrollHeight + 2) + 'px']. *)
Definition onInput (p : Page) : Page :=
  match textarea p with
  | Some ta => withHeight (px (contentHeight ta + 2)) (withHeight auto p)
  | None => p
  end.

(** A click listener of the button: [setTimeout(..., 50)]. *)
Definition onSendClick (p : Page) (textareaFound : bool) : Page :=
  {| textarea := textarea p; sendButton := sendButton p;
     timeouts := timeouts p ++ [(textareaFound, 50%nat)];
     prevented := prevented p; clicks := clicks p |}.

(** A click event on the button runs its listeners in order. *)
Definition dispatchClick (p : Page) : Page :=
  match sendButton p with
  | Some b => fold_left onSendClick (clickListeners b) p
  | None => p
  end.

(** The callback of the timer: [if (textarea) textarea.style.height =
    'auto']. *)
Definition onTimeout (textareaFound : bool) (p : Page) : Page :=
  if textareaFound then withHeight auto p else p.

(** A keydown listener. *)
Definition onKeyDown (key : string) (shiftKey ctrlKey : bool)
    (p : Page) (sendButtonFound : bool) : Page :=
  if String.eqb key "Enter" && negb shiftKey && negb ctrlKey then
    let p' := {| textarea := textarea p; sendButton := sendButton p;
                 timeouts := timeouts p;
                 prevented := S (prevented p); clicks := clicks p |} in
    if sendButtonFound then
      dispatchClick
        {| textarea := textarea p'; sendButton := sendButton p';
           timeouts := timeouts p';
           prevented := prevented p'; clicks := S (clicks p') |}
    else p'
  else p.

(** What the host delivers. *)
Inductive event :=
| Typed (newContentHeight : Z)     (* an input event on the textarea *)
| KeyDown (key : string) (shiftKey ctrlKey : bool)
| SendClicked                      (* the user clicks the button *)
| TimerFired                       (* the oldest pending timer fires *)
| BodyChanged                      (* a batch below [document.body] *)
| TextareaAdded (contentHeight : Z)
| SendButtonAdded.

Definition withContent (h : Z) (p : Page) : Page :=
  match textarea p with
  | Some ta =>
      {| textarea :=
           Some {| attributes := attributes ta; height := height ta;
                   contentHeight := h;
                   inputListeners := inputListeners ta;
                   keydownListeners := keydownListeners ta |};
         sendButton := sendButton p; timeouts := timeouts p;
         prevented := prevented p; clicks := clicks p |}
  | None => p
  end.

Definition step (p : Page) (e : event) : Page :=
  match e with
  | Typed h =>
      match textarea p with
      | Some ta => Nat.iter (inputListeners ta) onInput (withContent h p)
      | None => p
      end
  | KeyDown key shiftKey ctrlKey =>
      match textarea p with
      | Some ta =>
          fold_left (onKeyDown key shiftKey ctrlKey) (keydownListeners ta) p
      | None => p
      end
  | SendClicked => dispatchClick p
  | TimerFired =>
      match timeouts p with
      | (textareaFound, _) :: rest =>
          onTimeout textareaFound
            {| textarea := textarea p; sendButton := sendButton p;
               timeouts := rest;
               prevented := prevented p; clicks := clicks p |}
      | [] => p
      end
  | BodyChanged => setupEventListeners p
  | TextareaAdded h =>
      match textarea p with
      | Some _ => p
      | None =>
          {| textarea :=
               Some {| attributes := ["id"]; height := unset;
                       contentHeight := h; inputListeners := 0;
                       keydownListeners := [] |};
             sendButton := sendButton p; timeouts := timeouts p;
             prevented := prevented p; clicks := clicks p |}
      end
  | SendButtonAdded =>
      match sendButton p with
      | Some _ => p
      | None =>
          {| textarea := textarea p;
             sendButton :=
               Some {| btnAttributes := ["id"]; clickListeners := [] |};
             timeouts := timeouts p;
             prevented := prevented p; clicks := clicks p |}
      end
  end.

Definition run (events : list event) (p : Page) : Page :=
  fold_left step events p.

(** No element carries more listeners than the script registers in one
    go: a marked element has one of each kind, an unmarked one none. *)
Definition wiredOnce (p : Page) : Prop :=
  match textarea p with
  | Some ta =>
      if hasMarker "data-textarea-listeners" (attributes ta)
      then inputListeners ta = 1%nat /\ length (keydownListeners ta) = 1%nat
      else inputListeners ta = 0%nat /\ keydownListeners ta = []
  | None => True
  end
  /\ match sendButton p with
     | Some b =>
         if hasMarker "data-send-button-listener" (btnAttributes b)
         then length (clickListeners b) = 1%nat
         else clickListeners b = []
     | None => True
     end.

(** The page before the host has built anything. *)
Definition blank : Page :=
  {| textarea := None; sendButton := None; timeouts := [];
     prevented := 0; clicks := 0 |}.

(** What is registered on the two elements, and their attributes. *)
Definition wiring (p : Page)
  : option (list string * nat * list bool) * option (list string * list bool) :=
  (option_map
     (fun ta => (attributes ta, inputListeners ta, keydownListeners ta))
     (textarea p),
   option_map (fun b => (btnAttributes b, clickListeners b)) (sendButton p)).

(** A textarea as the host builds it, here with content [h] high. *)
Definition newTextarea (attrs : list string) (h : Z) : TextareaEl :=
  {| attributes := attrs; height := unset; contentHeight := h;
     inputListeners := 0; keydownListeners := [] |}.


(** A page on which the host has built the textarea only. *)
Definition builtWithoutButton (attrs : list string) (h : Z) : Page :=
  {| textarea := Some (newTextarea attrs h);
     sendButton := None;
     timeouts := []; prevented := 0; clicks := 0 |}.


(** The keydown listener keeps the send button it found when it was
    registered.  [lateButton p] says that the listener of the textarea was
    registered while there was no button. *)
Definition lateButton (p : Page) : Prop :=
  exists ta, textarea p = Some ta
             /\ hasMarker "data-textarea-listeners" (attributes ta) = true
             /\ keydownListeners ta = [false].


End Textarea.

(** ** More sample documents *)

Module MoreSamples.
Import Dom.

(** [<body><div id="chat-history"><div class="highlight-container">
    <pre><code>print(1)</code></pre></div></div></body>] *)
Definition transcript : node :=
  Elem "body" "" []
    [Elem "div" "chat-history" []
       [Elem "div" "" ["highlight-container"]
          [Elem "pre" "" [] [Elem "code" "" [] [Text "print(1)"]]]]].

(** The container is built between the second and the third attempt. *)
Definition lateContainer : IconVariant.Env :=
  {| IconVariant.documentAt :=
       fun k => if (k <? 2)%nat then Samples.highlighted else transcript;
     IconVariant.lag := fun k => k |}.

End MoreSamples.

(** ** Start-up of the icon revision when the container appears *)

Module IconStart.
Import Dom Host IconVariant.

(** The state of the loop once the container has been found by the
    attempt number [j] (counting from 0). *)
Definition found (env : Env) (j : nat) (l : Loop) : Prop :=
  observing (script l) = true
  /\ document (script l) = addCopyButtons (documentAt env j)
  /\ length (attempts l) = S j
  /\ spaced 100 (attempts l)
  /\ console l = []
  /\ timers l = [].

End IconStart.

(** * Facts about the document tree *)

Module DomFacts.
Import Dom.

Lemma innerText_elem t i c ch :
  innerText (Elem t i c ch) = innerTexts ch.
Proof. simpl. induction ch as [|x xs IH]; simpl; [done | by rewrite IH]. Qed.

Lemma querySelector_elem m t i c ch :
  querySelector m (Elem t i c ch) = querySelectorIn m ch.
Proof.
  simpl. induction ch as [|x xs IH]; simpl; [done|].
  destruct (m x); [done|]. destruct (querySelector m x); [done | apply IH].
Qed.

Lemma preUnder_elem cs anc t i c ch :
  preUnder cs anc (Elem t i c ch) =
  (if anc && String.eqb "pre" t then [[]] else []) ++
  preUnderEach cs (anc || carriesOneOf cs (Elem t i c ch)) 0 ch.
Proof.
  simpl. f_equal. generalize 0.
  induction ch as [|x xs IH]; intros k; simpl; [done | by rewrite IH].
Qed.

Lemma append_nil_r (s : string) : s +:+ "" = s.
Proof. induction s as [|a s IH]; [done|]. unfold String.append; fold String.append. by rewrite IH. Qed.

Lemma append_assoc (s1 s2 s3 : string) :
  (s1 +:+ s2) +:+ s3 = s1 +:+ (s2 +:+ s3).
Proof.
  induction s1 as [|a s1 IH]; [done|].
  unfold String.append; fold String.append. by rewrite IH.
Qed.

Lemma innerTexts_app l1 l2 :
  innerTexts (l1 ++ l2) = innerTexts l1 +:+ innerTexts l2.
Proof.
  induction l1 as [|x xs IH]; [done|].
  cbn [innerTexts app]. by rewrite IH, append_assoc.
Qed.

Lemma get_mutate f p : forall n x,
  get n p = Some x -> get (mutate f n p) p = Some (f x).
Proof.
  induction p as [|i q IH]; intros n x; simpl.
  - by intros [= ->].
  - destruct n as [s|t id c ch]; [done|]. cbn [childNodes].
    destruct (ch !! i) as [y|] eqn:Hi; [|done]. intros Hq.
    rewrite list_lookup_alter_eq, Hi. simpl. by apply IH.
Qed.

End DomFacts.

(** * Facts about the injector *)

Module InjectorFacts.
Import Dom Host Injector DomFacts.

Section facts.
Variable containers : list string.
Variable button : node.

Abbreviation attach := (Injector.attach button).
Abbreviation injected := (Injector.injected containers button).
Abbreviation addCopyButtons := (Injector.addCopyButtons containers button).
Abbreviation codeBlocks := (Injector.codeBlocks containers).
Abbreviation onMutations := (Injector.onMutations containers button).
Abbreviation kept := (Injector.scanOf containers button).

Lemma attach_below ps : forall t i c l k x,
  l !! k = Some x ->
  fold_left attach (List.map (cons k) ps) (Elem t i c l) =
  Elem t i c (<[k := fold_left attach ps x]> l).
Proof.
  induction ps as [|q ps IH]; intros t i c l k x Hk; simpl.
  - by rewrite list_insert_id.
  - assert (Hstep : attach (Elem t i c l) (k :: q) =
                    Elem t i c (<[k := attach x q]> l)).
    { unfold Injector.attach. simpl. rewrite Hk.
      destruct (get x q) as [pre|]; [|by rewrite list_insert_id].
      destruct (hasCopyButton pre); [by rewrite list_insert_id|].
      simpl. f_equal.
      apply list_eq. intros j. destruct (decide (k = j)) as [->|Hne].
      - rewrite list_lookup_alter_eq, Hk.
        rewrite list_lookup_insert_eq; [done | by eapply lookup_lt_Some].
      - by rewrite list_lookup_alter_ne, list_lookup_insert_ne. }
    rewrite Hstep.
    rewrite (IH t i c _ k (attach x q)).
    + by rewrite list_insert_insert_eq.
    + apply list_lookup_insert_eq. by eapply lookup_lt_Some.
Qed.

Lemma attach_children t i c anc : forall todo seen rest,
  Forall (fun x => forall a,
            fold_left attach (preUnder containers a x) x = injected a x)
         todo ->
  fold_left attach (preUnderEach containers anc (length seen) todo)
    (Elem t i c (seen ++ todo ++ rest)) =
  Elem t i c (seen ++ List.map (injected anc) todo ++ rest).
Proof.
  induction todo as [|x xs IH]; intros seen rest Hall; simpl; [done|].
  inversion Hall as [|? ? Hx Hxs]; subst.
  rewrite fold_left_app.
  rewrite (attach_below _ t i c _ (length seen) x).
  2:{ by rewrite list_lookup_middle. }
  rewrite Hx.
  replace (<[length seen := injected anc x]> (seen ++ x :: xs ++ rest))
    with ((seen ++ [injected anc x]) ++ xs ++ rest).
  2:{ rewrite <- (Nat.add_0_r (length seen)) at 1.
      rewrite insert_app_r. simpl. by rewrite <- app_assoc. }
  replace (S (length seen)) with (length (seen ++ [injected anc x])).
  2:{ rewrite length_app. simpl. lia. }
  rewrite IH by done. by rewrite <- app_assoc.
Qed.

(** The loop over the handles computes [injected]. *)
Lemma attach_injected n : forall anc,
  fold_left attach (preUnder containers anc n) n = injected anc n.
Proof.
  induction n as [s|t i c ch IH] using node_ind; intros anc; [done|].
  rewrite preUnder_elem, fold_left_app.
  cbn [Injector.injected].
  set (anc' := anc || carriesOneOf containers (Elem t i c ch)).
  destruct (anc && String.eqb "pre" t) eqn:Hsel; cbn [fold_left negb andb].
  - unfold Injector.attach at 2. cbn [get].
    destruct (hasCopyButton (Elem t i c ch)) eqn:Hb; cbn [negb mutate appendChild].
    + pose proof (attach_children t i c anc' ch [] [] IH) as H.
      simpl in H. by rewrite !app_nil_r in H.
    + pose proof (attach_children t i c anc' ch [] [button] IH) as H.
      by simpl in H.
  - pose proof (attach_children t i c anc' ch [] [] IH) as H.
    simpl in H. by rewrite !app_nil_r in H.
Qed.

Lemma addCopyButtons_injected doc :
  addCopyButtons doc = injected false doc.
Proof. apply attach_injected. Qed.

(** *** What one scan does to the tree *)

Lemma hasClass_injected k a n : hasClass k (injected a n) = hasClass k n.
Proof. by destruct n. Qed.

Lemma isCopyButton_injected a n : isCopyButton (injected a n) = isCopyButton n.
Proof. apply hasClass_injected. Qed.

Lemma carriesOneOf_injected a n :
  carriesOneOf containers (injected a n) = carriesOneOf containers n.
Proof. by destruct n. Qed.

Lemma querySelectorIn_app m l1 l2 :
  querySelectorIn m (l1 ++ l2) =
  match querySelectorIn m l1 with
  | Some r => Some r
  | None => querySelectorIn m l2
  end.
Proof.
  induction l1 as [|x xs IH]; simpl; [done|].
  destruct (m x); [done|]. by destruct (querySelector m x).
Qed.

Lemma querySelectorIn_None m l :
  querySelectorIn m l = None <->
  Forall (fun x => m x = false /\ querySelector m x = None) l.
Proof.
  induction l as [|x xs IH]; simpl.
  - split; [constructor | done].
  - destruct (m x) eqn:Hm.
    + split; [done|]. inversion 1 as [|? ? [? ?] ?]; congruence.
    + destruct (querySelector m x) eqn:Hq.
      * split; [done|]. inversion 1 as [|? ? [? ?] ?]; congruence.
      * rewrite IH. split; [by constructor|]. by inversion 1.
Qed.

(** A control that is present stays present. *)
Lemma hasCopyButton_injected n : forall a,
  hasCopyButton n = true -> hasCopyButton (injected a n) = true.
Proof.
  unfold hasCopyButton.
  induction n as [s|t i c ch IH] using node_ind; intros a; [done|].
  cbn [Injector.injected]. rewrite !querySelector_elem.
  set (a' := a || carriesOneOf containers (Elem t i c ch)).
  assert (Hch : is_Some (querySelectorIn isCopyButton ch) ->
                is_Some (querySelectorIn isCopyButton (List.map (injected a') ch))).
  { clear -IH. induction ch as [|x xs IHxs]; simpl; [done|].
    inversion IH as [|? ? Hx Hxs]; subst.
    rewrite isCopyButton_injected.
    destruct (isCopyButton x); [done|].
    specialize (Hx a').
    destruct (querySelector isCopyButton x).
    - specialize (Hx eq_refl).
      by destruct (querySelector isCopyButton (injected a' x)).
    - destruct (querySelector isCopyButton (injected a' x)); [done|].
      by apply IHxs. }
  destruct (querySelectorIn isCopyButton ch) eqn:Hq; [|done].
  intros _. destruct Hch as [r Hr]; [done|].
  destruct (a && String.eqb "pre" t && negb (hasCopyButton (Elem t i c ch)));
    [rewrite querySelectorIn_app|]; by rewrite Hr.
Qed.

Hypothesis button_marked : isCopyButton button = true.
Hypothesis button_no_pre : forall a, preUnder containers a button = [].

Lemma injected_button a : injected a button = button.
Proof. by rewrite <- attach_injected, button_no_pre. Qed.

Lemma hasCopyButton_appended t i c l :
  hasCopyButton (Elem t i c (l ++ [button])) = true.
Proof.
  unfold hasCopyButton. rewrite querySelector_elem, querySelectorIn_app.
  destruct (querySelectorIn isCopyButton l); [done|].
  simpl. by rewrite button_marked.
Qed.

(** A second scan changes nothing. *)
Lemma injected_idempotent n : forall a,
  injected a (injected a n) = injected a n.
Proof.
  induction n as [s|t i c ch IH] using node_ind; intros a; [done|].
  cbn [Injector.injected].
  set (a' := a || carriesOneOf containers (Elem t i c ch)).
  set (ch' := List.map (injected a') ch).
  assert (Hch' : List.map (injected a') ch' = ch').
  { subst ch'. rewrite List.map_map. apply List.map_ext_Forall.
    eapply Forall_impl; [exact IH|]. intros x Hx. apply Hx. }
  destruct (a && String.eqb "pre" t) eqn:Hsel; cbn [andb].
  - destruct (hasCopyButton (Elem t i c ch)) eqn:Hb; cbn [negb].
    + pose proof (hasCopyButton_injected _ a Hb) as Hb'.
      cbn [Injector.injected] in Hb'. rewrite Hsel, Hb in Hb'.
      cbn [andb negb] in Hb'. change (hasCopyButton (Elem t i c ch') = true) in Hb'.
      rewrite Hb'. cbn [negb]. f_equal. exact Hch'.
    + rewrite hasCopyButton_appended. cbn [negb].
      f_equal. rewrite List.map_app. cbn [List.map].
      rewrite injected_button. f_equal. exact Hch'.
  - f_equal. exact Hch'.
Qed.

Lemma addCopyButtons_idempotent doc :
  addCopyButtons (addCopyButtons doc) = addCopyButtons doc.
Proof. rewrite !addCopyButtons_injected. apply injected_idempotent. Qed.

Lemma addCopyButtons_iter doc N :
  1 <= N -> Nat.iter N addCopyButtons doc = addCopyButtons doc.
Proof.
  induction N as [|N IH]; [lia|]. intros _. simpl.
  destruct N as [|N]; [done|].
  rewrite IH by lia. apply addCopyButtons_idempotent.
Qed.

(** A scan neither adds nor removes a code block. *)
Lemma preUnderEach_app a k l1 l2 :
  preUnderEach containers a k (l1 ++ l2) =
  preUnderEach containers a k l1
    ++ preUnderEach containers a (k + length l1) l2.
Proof.
  revert k. induction l1 as [|x xs IH]; intros k; simpl.
  - by rewrite Nat.add_0_r.
  - rewrite IH, <- app_assoc. do 3 f_equal. lia.
Qed.

Lemma preUnder_injected n : forall a,
  preUnder containers a (injected a n) = preUnder containers a n.
Proof.
  induction n as [s|t i c ch IH] using node_ind; intros a; [done|].
  cbn [Injector.injected]. rewrite !preUnder_elem. f_equal.
  set (a' := a || carriesOneOf containers (Elem t i c ch)).
  assert (Ha' : a || carriesOneOf containers
                 (Elem t i c
                    (if a && String.eqb "pre" t
                        && negb (hasCopyButton (Elem t i c ch))
                     then List.map (injected a') ch ++ [button]
                     else List.map (injected a') ch)) = a') by done.
  rewrite Ha'.
  assert (Hch : forall k, preUnderEach containers a' k (List.map (injected a') ch)
                = preUnderEach containers a' k ch).
  { clear -IH. induction ch as [|x xs IHxs]; intros k; simpl; [done|].
    inversion IH as [|? ? Hx Hxs]; subst. by rewrite Hx, IHxs. }
  destruct (a && String.eqb "pre" t && negb (hasCopyButton (Elem t i c ch)));
    [|apply Hch].
  rewrite preUnderEach_app, Hch. simpl.
  by rewrite button_no_pre, app_nil_r.
Qed.

Lemma codeBlocks_addCopyButtons doc :
  codeBlocks (addCopyButtons doc) = codeBlocks doc.
Proof. rewrite addCopyButtons_injected. apply preUnder_injected. Qed.

(** *** Reading the scanned tree through a handle *)

Lemma preUnderEach_In a p : forall l k,
  In p (preUnderEach containers a k l) ->
  exists j x q, p = (k + j) :: q /\ l !! j = Some x
                /\ In q (preUnder containers a x).
Proof.
  induction l as [|x xs IH]; intros k; simpl; [done|].
  rewrite in_app_iff, in_map_iff. intros [(q & <- & Hq)|Hin].
  - exists 0, x, q. by rewrite Nat.add_0_r.
  - destruct (IH _ Hin) as (j & y & q & -> & Hj & Hq).
    exists (S j), y, q. split; [f_equal; lia | done].
Qed.

Lemma childNodes_injected a t i c ch j x :
  ch !! j = Some x ->
  childNodes (injected a (Elem t i c ch)) !! j =
  Some (injected (a || carriesOneOf containers (Elem t i c ch)) x).
Proof.
  intros Hj. cbn [Injector.injected childNodes].
  set (a' := a || carriesOneOf containers (Elem t i c ch)).
  assert (Hm : List.map (injected a') ch !! j = Some (injected a' x)).
  { change (List.map (injected a') ch) with (injected a' <$> ch).
    by rewrite list_lookup_fmap, Hj. }
  destruct (a && String.eqb "pre" t && negb (hasCopyButton (Elem t i c ch)));
    [by apply lookup_app_l_Some | done].
Qed.

(** A scan keeps every handle valid; the element behind it is the scanned
    version of the element that was there. *)
Lemma get_injected p : forall n a x,
  get n p = Some x -> exists a', get (injected a n) p = Some (injected a' x).
Proof.
  induction p as [|j q IH]; intros n a x; simpl.
  - intros [= ->]. by exists a.
  - destruct n as [s|t i c ch]; [done|]. cbn [childNodes].
    destruct (ch !! j) as [y|] eqn:Hj; [|done].
    intros Hq. rewrite (childNodes_injected a t i c ch j y Hj).
    by apply IH.
Qed.

Lemma affordances_injected a t i c ch :
  hasCopyButton (Elem t i c ch) = false ->
  List.filter isCopyButton
    (List.map (injected (a || carriesOneOf containers (Elem t i c ch))) ch) = [].
Proof.
  intros Hclean.
  assert (Hch : Forall (fun x => isCopyButton x = false
                                 /\ querySelector isCopyButton x = None) ch).
  { apply querySelectorIn_None. unfold hasCopyButton in Hclean.
    rewrite querySelector_elem in Hclean.
    by destruct (querySelectorIn isCopyButton ch). }
  generalize (a || carriesOneOf containers (Elem t i c ch)). intros a'.
  clear Hclean. induction Hch as [|x xs [Hx _] _ IHxs]; simpl; [done|].
  by rewrite isCopyButton_injected, Hx.
Qed.

(** On a code block that came without a control, one scan leaves exactly
    one. *)
Lemma injected_one_affordance n : forall a p pre,
  In p (preUnder containers a n) ->
  get n p = Some pre ->
  hasCopyButton pre = false ->
  affordanceCount (injected a n) p = Some 1.
Proof.
  unfold affordanceCount.
  induction n as [s|t i c ch IH] using node_ind; intros a p pre; [done|].
  rewrite preUnder_elem, in_app_iff. intros [Hself|Hbelow].
  - destruct (a && String.eqb "pre" t) eqn:Hsel; [|done].
    destruct Hself as [<-|[]]. intros [= <-] Hclean.
    cbn [get fmap option_fmap option_map]. f_equal.
    cbn [Injector.injected]. rewrite Hsel, Hclean. cbn [andb negb].
    unfold affordances. cbn [childNodes].
    rewrite List.filter_app, length_app, affordances_injected by done.
    cbn [List.filter]. by rewrite button_marked.
  - destruct (preUnderEach_In _ _ _ _ Hbelow) as (j & x & q & -> & Hj & Hq).
    cbn [get Nat.add childNodes]. rewrite Hj. intros Hget Hclean.
    pose proof (childNodes_injected a t i c ch j x Hj) as Hc.
    cbn [childNodes] in Hc. rewrite Hc.
    rewrite Forall_lookup in IH. by apply (IH j x Hj _ q pre).
Qed.

Lemma addCopyButtons_one_affordance doc p pre :
  In p (codeBlocks doc) ->
  get doc p = Some pre ->
  hasCopyButton pre = false ->
  affordanceCount (addCopyButtons doc) p = Some 1.
Proof. rewrite addCopyButtons_injected. apply injected_one_affordance. Qed.

(** After a scan every code block holds a control. *)
Lemma injected_has_button n : forall a p,
  In p (preUnder containers a n) ->
  exists pre, get (injected a n) p = Some pre /\ hasCopyButton pre = true.
Proof.
  induction n as [s|t i c ch IH] using node_ind; intros a p; [done|].
  rewrite preUnder_elem, in_app_iff. intros [Hself|Hbelow].
  - destruct (a && String.eqb "pre" t) eqn:Hsel; [|done].
    destruct Hself as [<-|[]].
    eexists. split; [done|].
    destruct (hasCopyButton (Elem t i c ch)) eqn:Hb.
    + by apply hasCopyButton_injected.
    + cbn [Injector.injected]. rewrite Hsel, Hb. cbn [andb negb].
      apply hasCopyButton_appended.
  - destruct (preUnderEach_In _ _ _ _ Hbelow) as (j & x & q & -> & Hj & Hq).
    cbn [get Nat.add].
    rewrite (childNodes_injected a t i c ch j x Hj).
    rewrite Forall_lookup in IH. by apply (IH j x Hj).
Qed.

Lemma addCopyButtons_has_button doc p :
  In p (codeBlocks doc) ->
  exists pre, get (addCopyButtons doc) p = Some pre /\ hasCopyButton pre = true.
Proof. rewrite addCopyButtons_injected. apply injected_has_button. Qed.

(** *** What a scan leaves untouched *)

Section selectors.
Variable m : node -> bool.
Hypothesis m_root : forall a x, m (injected a x) = m x.
Hypothesis m_button : m button = false.
Hypothesis m_in_button : querySelector m button = None.

(** The first match of a selector that the control does not satisfy is
    the scanned version of the first match in the original block. *)
Lemma querySelector_injected n : forall a,
  kept (querySelector m n) (querySelector m (injected a n)).
Proof.
  induction n as [s|t i c ch IH] using node_ind; intros a; [done|].
  cbn [Injector.injected]. rewrite !querySelector_elem.
  set (a' := a || carriesOneOf containers (Elem t i c ch)).
  assert (Hch : kept (querySelectorIn m ch)
                  (querySelectorIn m (List.map (injected a') ch))).
  { clear -IH m_root. induction ch as [|x xs IHxs]; simpl; [done|].
    inversion IH as [|? ? Hx Hxs]; subst.
    rewrite m_root. destruct (m x); [by exists a'|].
    specialize (Hx a'). unfold kept, Injector.scanOf in Hx.
    destruct (querySelector m x) as [r|].
    - destruct Hx as [a'' ->]. by exists a''.
    - rewrite Hx. by apply IHxs. }
  destruct (a && String.eqb "pre" t && negb (hasCopyButton (Elem t i c ch)));
    [|exact Hch].
  rewrite querySelectorIn_app. unfold kept, Injector.scanOf in *.
  destruct (querySelectorIn m ch) as [r|].
  - destruct Hch as [a'' ->]. by exists a''.
  - rewrite Hch. simpl. by rewrite m_button, m_in_button.
Qed.
End selectors.

Section silent_control.
Hypothesis button_silent : innerText button = "".

(** A control without text leaves every rendered text as it was. *)
Lemma innerText_injected n : forall a, innerText (injected a n) = innerText n.
Proof.
  induction n as [s|t i c ch IH] using node_ind; intros a; [done|].
  cbn [Injector.injected]. rewrite !innerText_elem.
  set (a' := a || carriesOneOf containers (Elem t i c ch)).
  assert (Hch : innerTexts (List.map (injected a') ch) = innerTexts ch).
  { clearbody a'. clear -IH.
    induction IH as [|x xs Hx _ IHxs]; simpl; [done|].
    by rewrite Hx, IHxs. }
  destruct (a && String.eqb "pre" t && negb (hasCopyButton (Elem t i c ch)));
    [|exact Hch].
  rewrite innerTexts_app, Hch. cbn [innerTexts].
  by rewrite button_silent, !append_nil_r.
Qed.
End silent_control.

(** *** The watcher's callback *)

Lemma onMutations_from mutations : forall doc n,
  fold_left
    (fun (st : node * nat) mutation =>
       if qualifies mutation then (addCopyButtons (fst st), S (snd st))
       else st)
    mutations (doc, n) =
  (if (0 <? length (List.filter qualifies mutations))%nat
   then addCopyButtons doc else doc,
   n + length (List.filter qualifies mutations)).
Proof.
  induction mutations as [|m ms IH]; intros doc n; simpl.
  - by rewrite Nat.add_0_r.
  - destruct (qualifies m); simpl; [|apply IH].
    rewrite IH. cbn [fst snd]. f_equal; [|lia].
    destruct (0 <? length (List.filter qualifies ms))%nat; [|done].
    apply addCopyButtons_idempotent.
Qed.

(** The callback scans once per qualifying record; the document it leaves
    is the one a single scan leaves. *)
Lemma onMutations_calls mutations doc :
  onMutations mutations doc =
  (if (0 <? length (List.filter qualifies mutations))%nat
   then addCopyButtons doc else doc,
   length (List.filter qualifies mutations)).
Proof. unfold Injector.onMutations. by rewrite onMutations_from. Qed.

End facts.
End InjectorFacts.

(** * The copy buttons *)

Module CopyButtons.
Import Dom Host Injector DomFacts InjectorFacts.

Lemma icon_button_marked : isCopyButton IconVariant.button = true.
Proof. reflexivity. Qed.

Lemma icon_button_no_pre a :
  preUnder IconVariant.containers a IconVariant.button = [].
Proof. by destruct a. Qed.

Lemma text_button_marked : isCopyButton TextVariant.button = true.
Proof. reflexivity. Qed.

Lemma text_button_no_pre a :
  preUnder TextVariant.containers a TextVariant.button = [].
Proof. by destruct a. Qed.

Lemma hasTag_injected cs b t a x :
  hasTag t (Injector.injected cs b a x) = hasTag t x.
Proof. by destruct x. Qed.

(** In the icon revision the payload is the text the block's first [code]
    element had before the scan. *)
Lemma icon_payload doc p pre :
  get doc p = Some pre ->
  IconVariant.activate (IconVariant.addCopyButtons doc) p =
  Some [ClipboardWrite
          match querySelector (hasTag "code") pre with
          | Some code => innerText code
          | None => ""
          end].
Proof.
  intros Hp. unfold IconVariant.activate, IconVariant.addCopyButtons.
  rewrite addCopyButtons_injected.
  destruct (get_injected IconVariant.containers IconVariant.button p doc false pre Hp)
    as [a Hget].
  rewrite Hget. cbn [fmap option_fmap option_map]. unfold IconVariant.onClick.
  pose proof (querySelector_injected IconVariant.containers IconVariant.button
                (hasTag "code") (fun a x => hasTag_injected _ _ _ a x)
                eq_refl eq_refl pre a) as Hq.
  unfold scanOf in Hq.
  destruct (querySelector (hasTag "code") pre) as [code|].
  - destruct Hq as [a' ->]. by rewrite innerText_injected.
  - by rewrite Hq.
Qed.

(** C1 (as amended).  In the icon revision, after a scan every code block
    holds a control, and activating it issues exactly one clipboard write.
    If the block holds a [code] element whose rendered text, in the
    document the host built, is [print(1)], the payload is exactly
    [print(1)]: no markup and nothing from the injected control.  If the
    block holds no [code] element, the payload is the empty string. *)
Theorem copy_payload_is_code_text doc p pre :
  In p (IconVariant.codeBlocks doc) ->
  get doc p = Some pre ->
  hasCopyButton <$> get (IconVariant.addCopyButtons doc) p = Some true
  /\ (forall code,
        querySelector (hasTag "code") pre = Some code ->
        innerText code = "print(1)" ->
        IconVariant.activate (IconVariant.addCopyButtons doc) p =
        Some [ClipboardWrite "print(1)"])
  /\ (querySelector (hasTag "code") pre = None ->
      IconVariant.activate (IconVariant.addCopyButtons doc) p =
      Some [ClipboardWrite ""]).
Proof.
  intros Hin Hp. rewrite (icon_payload doc p pre Hp). split; [|split].
  - destruct (addCopyButtons_has_button _ _ icon_button_marked doc p Hin)
      as (pre' & Hget & Hb).
    unfold IconVariant.addCopyButtons. by rewrite Hget; simpl; rewrite Hb.
  - intros code -> ->. reflexivity.
  - intros ->. reflexivity.
Qed.

Lemma copy_payload_is_code_text_witness :
  IconVariant.activate (IconVariant.addCopyButtons Samples.highlighted) [0; 0]
  = Some [ClipboardWrite "print(1)"].
Proof.
  refine (proj1 (proj2 (copy_payload_is_code_text Samples.highlighted [0; 0]
                          (Elem "pre" "" [] [Elem "code" "" [] [Text "print(1)"]])
                          _ _))
            (Elem "code" "" [] [Text "print(1)"]) _ _).
  - simpl. left. reflexivity.
  - reflexivity.
  - reflexivity.
  - reflexivity.
Defined.

(** C1 as stated fails: a code block of the icon revision whose rendered
    text is [print(1)] but which holds no [code] element is copied as the
    empty string. *)
Lemma copy_payload_without_code_element :
  In [0; 0] (IconVariant.codeBlocks Samples.toolCall)
  /\ innerText <$> get Samples.toolCall [0; 0] = Some "print(1)"
  /\ IconVariant.activate (IconVariant.addCopyButtons Samples.toolCall) [0; 0]
     = Some [ClipboardWrite ""]
  /\ IconVariant.activate (IconVariant.addCopyButtons Samples.toolCall) [0; 0]
     <> Some [ClipboardWrite "print(1)"].
Proof.
  split; [simpl; by left|]. split; [reflexivity|]. split; [reflexivity|].
  discriminate.
Qed.

(** In the text revision the click listener reads the text of the whole
    block after the button was appended to it, so the label of the button
    is part of the payload. *)
Remark text_payload_includes_label :
  innerText <$> get Samples.highlightedText [0; 0] = Some "print(1)"
  /\ TextVariant.activate (TextVariant.addCopyButtons Samples.highlightedText)
       [0; 0]
     = Some [ClipboardWrite "print(1)Copy"].
Proof. split; reflexivity. Qed.

(** C2.  Scanning is idempotent, in both revisions.  [N >= 1] scans
    leave the document exactly as the first scan leaves it, so every code
    block carries the same number of controls after the [N]-th scan as
    after the first; the scans leave the set of code blocks as it was;
    and a code block that came from the host without a control carries
    exactly one. *)
Theorem injection_idempotent doc N p pre :
  1 <= N ->
  get doc p = Some pre ->
  hasCopyButton pre = false ->
  (In p (IconVariant.codeBlocks doc) ->
   IconVariant.scans N doc = IconVariant.scans 1 doc
   /\ IconVariant.codeBlocks (IconVariant.scans N doc)
      = IconVariant.codeBlocks doc
   /\ affordanceCount (IconVariant.scans N doc) p = Some 1
   /\ affordanceCount (IconVariant.scans N doc) p
      = affordanceCount (IconVariant.scans 1 doc) p)
  /\ (In p (TextVariant.codeBlocks doc) ->
      TextVariant.scans N doc = TextVariant.scans 1 doc
      /\ TextVariant.codeBlocks (TextVariant.scans N doc)
         = TextVariant.codeBlocks doc
      /\ affordanceCount (TextVariant.scans N doc) p = Some 1
      /\ affordanceCount (TextVariant.scans N doc) p
         = affordanceCount (TextVariant.scans 1 doc) p).
Proof.
  intros HN Hget Hclean. split; intros Hp.
  - unfold IconVariant.scans, IconVariant.codeBlocks, Injector.scans in *.
    rewrite (addCopyButtons_iter _ _ icon_button_marked icon_button_no_pre doc N HN).
    rewrite (addCopyButtons_iter _ _ icon_button_marked icon_button_no_pre doc 1)
      by lia.
    split; [done|].
    split; [by apply codeBlocks_addCopyButtons, icon_button_no_pre|].
    split; [|done].
    by apply (addCopyButtons_one_affordance _ _ icon_button_marked doc p pre).
  - unfold TextVariant.scans, TextVariant.codeBlocks, Injector.scans in *.
    rewrite (addCopyButtons_iter _ _ text_button_marked text_button_no_pre doc N HN).
    rewrite (addCopyButtons_iter _ _ text_button_marked text_button_no_pre doc 1)
      by lia.
    split; [done|].
    split; [by apply codeBlocks_addCopyButtons, text_button_no_pre|].
    split; [|done].
    by apply (addCopyButtons_one_affordance _ _ text_button_marked doc p pre).
Qed.

Lemma injection_idempotent_witness :
  affordanceCount (IconVariant.scans 3 Samples.highlighted) [0; 0] = Some 1
  /\ affordanceCount (TextVariant.scans 3 Samples.highlightedText) [0; 0]
     = Some 1.
Proof.
  split.
  - refine (proj1 (proj2 (proj2 (proj1 (injection_idempotent Samples.highlighted
              3 [0; 0] (Elem "pre" "" [] [Elem "code" "" [] [Text "print(1)"]])
              _ _ _) _)))).
    + lia.
    + reflexivity.
    + reflexivity.
    + simpl. left. reflexivity.
  - refine (proj1 (proj2 (proj2 (proj2 (injection_idempotent
              Samples.highlightedText 3 [0; 0]
              (Elem "pre" "" [] [Elem "code" "" [] [Text "print(1)"]])
              _ _ _) _)))).
    + lia.
    + reflexivity.
    + reflexivity.
    + simpl. left. reflexivity.
Defined.

(** C8 (as amended).  While a batch is processed the callback calls the
    scan once for every record of type [childList] that has added nodes:
    once if the batch has one such record, more often if it has more.
    Whatever the number of calls, the document is left as one scan leaves
    it.  This holds in both revisions. *)
Theorem rescan_once_per_record mutations doc :
  IconVariant.onMutations mutations doc =
    (if (0 <? length (List.filter qualifies mutations))%nat
     then IconVariant.addCopyButtons doc else doc,
     length (List.filter qualifies mutations))
  /\ TextVariant.onMutations mutations doc =
       (if (0 <? length (List.filter qualifies mutations))%nat
        then TextVariant.addCopyButtons doc else doc,
        length (List.filter qualifies mutations)).
Proof.
  split.
  - apply onMutations_calls; [exact icon_button_marked | exact icon_button_no_pre].
  - apply onMutations_calls; [exact text_button_marked | exact text_button_no_pre].
Qed.

(** C8 as stated fails: a batch of two records, each with one added node,
    makes the callback scan twice. *)
Lemma two_insertions_two_rescans :
  Forall (fun m => length (addedNodes m) = 1) Samples.twoInsertions
  /\ snd (IconVariant.onMutations Samples.twoInsertions Samples.highlighted) = 2
  /\ snd (TextVariant.onMutations Samples.twoInsertions Samples.highlightedText)
     = 2.
Proof. split; [by repeat constructor|]. split; reflexivity. Qed.

(** C7 (as amended).  When the clipboard write of an activation fails,
    the failure is logged.  In the text revision the control then shows
    the error label and a timer of 2000 ms is set whose callback puts the
    idle label back.  In the icon revision, which has no error
    presentation, nothing else happens: the control is left as it is and
    no timer is set. *)
Theorem clipboard_failure_handling doc b t i c ch :
  get doc b = Some (Elem t i c ch) ->
  (snd (TextVariant.settle rejected doc b) =
     [ConsoleError "Failed to copy text: ";
      SetTimeout (TextVariant.RestoreLabel b) 2000]
   /\ TextVariant.affordanceState
        <$> get (fst (TextVariant.settle rejected doc b)) b
      = Some (Some error)
   /\ TextVariant.affordanceState
        <$> get (TextVariant.runTask (TextVariant.RestoreLabel b)
                   (fst (TextVariant.settle rejected doc b))) b
      = Some (Some idle))
  /\ IconVariant.settle rejected doc b =
       (doc, [ConsoleError "Failed to copy text: "]).
Proof.
  intros Hb. split; [|reflexivity]. split; [reflexivity|].
  cbn [TextVariant.settle TextVariant.onRejected fst TextVariant.runTask].
  unfold TextVariant.restoreLabel.
  pose proof (get_mutate (setInnerText "Error!") b doc _ Hb) as He.
  rewrite He. split; [reflexivity|].
  by rewrite (get_mutate (setInnerText "Copy") b _ _ He).
Qed.

Lemma clipboard_failure_handling_witness :
  TextVariant.affordanceState
    <$> get (fst (TextVariant.settle rejected
                    (TextVariant.addCopyButtons Samples.highlightedText)
                    [0; 0; 1])) [0; 0; 1]
  = Some (Some error).
Proof.
  refine (proj1 (proj2 (proj1 (clipboard_failure_handling
            (TextVariant.addCopyButtons Samples.highlightedText) [0; 0; 1]
            "button" "" ["copy-code-button"] [Text "Copy"] _)))).
  reflexivity.
Defined.

(** C7 as stated fails: in the icon revision a failed write sets no timer
    at all, so no revert is scheduled. *)
Lemma icon_failure_schedules_no_revert :
  IconVariant.affordanceState
    <$> get (IconVariant.addCopyButtons Samples.highlighted) [0; 0; 1]
  = Some (Some idle)
  /\ ~ exists callback ms,
         In (SetTimeout callback ms)
            (snd (IconVariant.settle rejected
                    (IconVariant.addCopyButtons Samples.highlighted)
                    [0; 0; 1])).
Proof.
  split; [reflexivity|].
  intros (callback & ms & [H|[]]). discriminate H.
Qed.

End CopyButtons.

(** * Start-up of the icon revision *)

Module Bootstrap.
Import Dom Host IconVariant.

Lemma spaced_snoc d times t now :
  spaced d times -> last times = Some t -> t + d <= now ->
  spaced d (times ++ [now]).
Proof.
  intros Hs Hlast Hle i a b Ha Hb.
  apply lookup_snoc_Some in Hb as [[Hlt Hb]|[Hi <-]].
  - apply lookup_snoc_Some in Ha as [[_ Ha]|[Hi _]]; [|lia].
    by apply (Hs i).
  - apply lookup_snoc_Some in Ha as [[_ Ha]|[Hi' _]]; [|lia].
    rewrite last_lookup, <- Hi in Hlast. simpl in Hlast.
    rewrite Ha in Hlast. injection Hlast as ->. exact Hle.
Qed.

Lemma spaced_singleton d t : spaced d [t].
Proof. intros i a b _ Hb. by destruct i. Qed.

Lemma run_quiescent fuel env l : timers l = [] -> run fuel env l = l.
Proof. intros Hq. destruct fuel; simpl; [done|]. by rewrite Hq. Qed.

Lemma run_add env a : forall b l,
  run (a + b) env l = run b env (run a env l).
Proof.
  induction a as [|a IH]; intros b l; simpl; [done|].
  destruct (nextTimer (timers l)) as [[[due t] rest]|] eqn:Hn.
  - apply IH.
  - destruct b; simpl; [done|]. by rewrite Hn.
Qed.

(** The first attempt, made when the page is ready. *)
Lemma boot_pending env ready :
  neverPresent env -> pendingRetry 1 (boot env ready).
Proof.
  intros Habsent. unfold boot, runTask, initializeObserver.
  cbn [script document retries observing attempts length].
  rewrite Habsent. cbn.
  repeat split. apply spaced_singleton.
Qed.

(** One more attempt. *)
Lemma retry_step env j l :
  neverPresent env -> pendingRetry j l ->
  (S j < maxRetries -> pendingRetry (S j) (run 1 env l))
  /\ (S j = maxRetries -> givenUp (run 1 env l)).
Proof.
  intros Habsent (Hr & Ho & Hlen & Hc & Hs & Hlast & Hq).
  destruct l as [[d r o] t q times c]. cbn in Hr, Ho, Hlen, Hc, Hlast, Hq, Hs.
  subst r o c q.
  cbn [run nextTimer timers clock attempts script console fst snd].
  unfold runTask, initializeObserver.
  cbn [script document retries observing attempts timers clock console].
  rewrite Habsent.
  set (now := Nat.max t (t + 100) + lag env (length times)).
  assert (Hnow : t + 100 <= now) by (subst now; lia).
  split; intros Hj.
  - assert (Hlt : (S j <? maxRetries)%nat = true) by by apply Nat.ltb_lt.
    rewrite Hlt. cbn [fold_left perform script clock timers attempts console app].
    repeat split; cbn [script retries observing attempts console clock timers].
    + rewrite length_app. simpl. lia.
    + by eapply spaced_snoc.
    + apply last_snoc.
  - assert (Hlt : (S j <? maxRetries)%nat = false)
      by (apply Nat.ltb_ge; lia).
    rewrite Hlt. cbn [fold_left perform script clock timers attempts console app].
    repeat split; cbn [script retries observing attempts console clock timers].
    + done.
    + rewrite length_app. simpl. lia.
    + by eapply spaced_snoc.
    + apply last_snoc.
Qed.

Lemma retries_exhaust env n : forall j l,
  neverPresent env -> pendingRetry j l -> j + n = maxRetries -> 1 <= n ->
  givenUp (run n env l).
Proof.
  induction n as [|n IH]; intros j l Habsent Hp Hsum Hn; [lia|].
  destruct (retry_step env j l Habsent Hp) as [Hmore Hlast].
  change (S n) with (1 + n). rewrite run_add.
  destruct n as [|n].
  - apply Hlast. lia.
  - apply (IH (S j)); [done | apply Hmore | |]; lia.
Qed.

(** C6.  If the container is absent at every attempt, the script looks
    for it exactly 20 times, consecutive attempts are at least 100 ms
    apart, the terminal error is logged during the last attempt (and only
    then), and the event loop is then idle: no timer is pending, the
    observer was never started, and running the loop further changes
    nothing. *)
Theorem bootstrap_retry_bound env ready fuel :
  neverPresent env ->
  19 <= fuel ->
  length (attempts (run fuel env (boot env ready))) = 20
  /\ spaced 100 (attempts (run fuel env (boot env ready)))
  /\ console (run fuel env (boot env ready)) = [terminalError]
  /\ last (attempts (run fuel env (boot env ready)))
     = Some (clock (run fuel env (boot env ready)))
  /\ timers (run fuel env (boot env ready)) = []
  /\ observing (script (run fuel env (boot env ready))) = false
  /\ forall more,
       run more env (run fuel env (boot env ready))
       = run fuel env (boot env ready).
Proof.
  intros Habsent Hfuel.
  replace fuel with (19 + (fuel - 19)) by lia. rewrite run_add.
  pose proof (retries_exhaust env 19 1 _ Habsent (boot_pending env ready Habsent)
                eq_refl ltac:(lia)) as (Hr & Ho & Hlen & Hc & Hs & Hlast & Hq).
  rewrite (run_quiescent _ _ _ Hq).
  repeat split; try done.
  intros more. by apply run_quiescent.
Qed.

Lemma bootstrap_retry_bound_witness :
  length (attempts (run 25 {| documentAt := fun _ => Samples.highlighted;
                              lag := fun k => k |}
                      (boot {| documentAt := fun _ => Samples.highlighted;
                               lag := fun k => k |} 7))) = 20.
Proof.
  refine (proj1 (bootstrap_retry_bound
                   {| documentAt := fun _ => Samples.highlighted;
                      lag := fun k => k |} 7 25 _ _)).
  - intros k. reflexivity.
  - lia.
Defined.

End Bootstrap.

(** * The scroll policy *)

Module ScrollFacts.
Import Scroll.

Open Scope Z_scope.

Lemma scrollTo_auto_top chat :
  0 <= clientHeight chat ->
  scrollTo {| top := scrollHeight chat; behavior := auto |} chat
  = withScrollTop (maxScrollTop chat) chat.
Proof.
  intros Hc. unfold scrollTo, maxScrollTop. cbn [behavior top]. f_equal. lia.
Qed.

Lemma observer_follows p k chat :
  chatHistoryEl p = Some chat ->
  0 <= clientHeight chat ->
  userIsAtBottom p !! k = Some true ->
  onMutations k p
  = {| chatHistoryEl := Some (withScrollTop (maxScrollTop chat) chat);
       scrollToBottomBtn := scrollToBottomBtn p;
       userIsAtBottom := userIsAtBottom p;
       timeouts := timeouts p;
       scrollCalls :=
         scrollCalls p ++ [{| top := scrollHeight chat; behavior := auto |}] |}.
Proof.
  intros Hchat Hc Hk. unfold onMutations. rewrite Hk.
  unfold scrollToBottom. rewrite Hchat. by rewrite scrollTo_auto_top.
Qed.

(** *** What the handlers leave alone *)

Lemma wiring_scrollToBottom b p : wiring (scrollToBottom b p) = wiring p.
Proof.
  unfold scrollToBottom, wiring. destruct (chatHistoryEl p) as [chat|] eqn:H;
    [|by rewrite H].
  cbn [chatHistoryEl scrollToBottomBtn]. unfold scrollTo.
  by destruct b.
Qed.

Lemma wiring_setDisplay d p : wiring (setDisplay d p) = wiring p.
Proof.
  unfold setDisplay, wiring.
  destruct (scrollToBottomBtn p) as [btn|] eqn:H; [done | by rewrite H].
Qed.

Lemma wiring_setFlag k b p : wiring (setFlag k b p) = wiring p.
Proof. done. Qed.

Lemma wiring_withGeometry h t p : wiring (withGeometry h t p) = wiring p.
Proof.
  unfold withGeometry, wiring.
  destruct (chatHistoryEl p) as [chat|] eqn:H; [done | by rewrite H].
Qed.

Lemma wiring_onScroll p k : wiring (onScroll k p) = wiring p.
Proof.
  unfold onScroll. destruct (chatHistoryEl p) as [chat|]; [|done].
  destruct (isScrolledToBottom chat);
    [|destruct (scrollHeight chat >? clientHeight chat)];
    by rewrite ?wiring_setDisplay, wiring_setFlag.
Qed.

Lemma wiring_onMutations p k : wiring (onMutations k p) = wiring p.
Proof.
  unfold onMutations. destruct (userIsAtBottom p !! k) as [[|]|]; [|done..].
  apply wiring_scrollToBottom.
Qed.

Lemma wiring_onClick p k : wiring (onClick k p) = wiring p.
Proof. apply wiring_scrollToBottom. Qed.

Lemma fold_left_kept {S A B} (f : S -> A -> S) (g : S -> B) (l : list A) :
  (forall s a, g (f s a) = g s) -> forall s, g (fold_left f l s) = g s.
Proof.
  intros Hf. induction l as [|a l IH]; intros s; simpl; [done|].
  by rewrite IH, Hf.
Qed.

Lemma marked_wiring p q : wiring p = wiring q -> marked p = marked q.
Proof.
  unfold wiring, marked, hasAttribute. intros [= H _].
  destruct (chatHistoryEl p), (chatHistoryEl q); simpl in H; try done.
  by injection H as -> _ _ _.
Qed.

(** The guard: on a container that carries the marker the set-up returns
    at once. *)
Lemma setup_marked p : marked p = true -> setupScrollHandling p = p.
Proof.
  unfold marked, setupScrollHandling.
  destruct (chatHistoryEl p) as [chat|]; [|done].
  intros ->. by destruct (scrollToBottomBtn p).
Qed.

Lemma wiring_step p e : marked p = true -> wiring (step p e) = wiring p.
Proof.
  intros Hm. destruct e as [t|h t| | |k]; cbn [step].
  - rewrite (fold_left_kept _ wiring); [|intros; apply wiring_onScroll].
    apply wiring_withGeometry.
  - rewrite setup_marked.
    + rewrite (fold_left_kept _ wiring); [|intros; apply wiring_onMutations].
      apply wiring_withGeometry.
    + rewrite <- Hm. apply marked_wiring.
      rewrite (fold_left_kept _ wiring); [|intros; apply wiring_onMutations].
      apply wiring_withGeometry.
  - by rewrite setup_marked.
  - rewrite (fold_left_kept _ wiring); [done | intros; apply wiring_onClick].
  - destruct (existsb _ _); [|done].
    unfold onTimeout. by rewrite wiring_scrollToBottom.
Qed.

Lemma wiring_run events : forall p,
  marked p = true -> wiring (run events p) = wiring p.
Proof.
  unfold run. induction events as [|e events IH]; intros p Hm; simpl; [done|].
  rewrite IH.
  - by apply wiring_step.
  - rewrite <- Hm. by apply marked_wiring, wiring_step.
Qed.

Lemma flags_scrollToBottom b p :
  userIsAtBottom (scrollToBottom b p) = userIsAtBottom p.
Proof. unfold scrollToBottom. by destruct (chatHistoryEl p). Qed.

Lemma flags_onMutations p k :
  userIsAtBottom (onMutations k p) = userIsAtBottom p.
Proof.
  unfold onMutations. destruct (userIsAtBottom p !! k) as [[|]|]; [|done..].
  apply flags_scrollToBottom.
Qed.

Lemma flags_withGeometry h t p :
  userIsAtBottom (withGeometry h t p) = userIsAtBottom p.
Proof. unfold withGeometry. by destruct (chatHistoryEl p). Qed.

(** Only a scroll event changes a flag. *)
Lemma flags_step p e :
  quiet e = true -> marked p = true ->
  userIsAtBottom (step p e) = userIsAtBottom p.
Proof.
  intros Hq Hm. destruct e as [t|h t| | |k]; [done|..]; cbn [step].
  - rewrite setup_marked.
    + rewrite (fold_left_kept _ userIsAtBottom); [|intros; apply flags_onMutations].
      apply flags_withGeometry.
    + rewrite <- Hm. apply marked_wiring.
      rewrite (fold_left_kept _ wiring); [|intros; apply wiring_onMutations].
      apply wiring_withGeometry.
  - by rewrite setup_marked.
  - rewrite (fold_left_kept _ userIsAtBottom); [done|].
    intros. apply flags_scrollToBottom.
  - destruct (existsb _ _); [|done].
    unfold onTimeout. by rewrite flags_scrollToBottom.
Qed.

Lemma flags_run events : forall p,
  forallb quiet events = true -> marked p = true ->
  userIsAtBottom (run events p) = userIsAtBottom p.
Proof.
  unfold run. induction events as [|e events IH]; intros p Hq Hm; simpl; [done|].
  simpl in Hq. apply andb_true_iff in Hq as [He Hq].
  rewrite IH; [by apply flags_step | done |].
  rewrite <- Hm. by apply marked_wiring, wiring_step.
Qed.

Lemma contentHeight_onMutations p k :
  contentHeight (onMutations k p) = contentHeight p.
Proof.
  unfold onMutations. destruct (userIsAtBottom p !! k) as [[|]|]; [|done..].
  unfold scrollToBottom, contentHeight.
  destruct (chatHistoryEl p) as [chat|] eqn:H; [|by rewrite H].
  cbn [chatHistoryEl option_map]. unfold scrollTo. by destruct (behavior _).
Qed.

(** What the first call of the set-up wires up. *)
Lemma setup_fresh p chat btn :
  chatHistoryEl p = Some chat ->
  scrollToBottomBtn p = Some btn ->
  hasAttribute "data-scroll-handler" chat = false ->
  marked (setupScrollHandling p) = true
  /\ wiring (setupScrollHandling p)
     = (Some (attributes chat ++ ["data-scroll-handler"],
              scrollListeners chat ++ [length (userIsAtBottom p)],
              mutationObservers chat ++ [length (userIsAtBottom p)],
              clientHeight chat),
        Some (btnAttributes btn,
              clickListeners btn ++ [length (userIsAtBottom p)]))
  /\ userIsAtBottom (setupScrollHandling p) = userIsAtBottom p ++ [true]
  /\ timeouts (setupScrollHandling p)
     = timeouts p ++ [(length (userIsAtBottom p), 200%nat)]
  /\ scrollCalls (setupScrollHandling p) = scrollCalls p.
Proof.
  intros Hchat Hbtn Hfree. unfold setupScrollHandling, marked.
  rewrite Hchat, Hbtn, Hfree. cbn [chatHistoryEl].
  repeat split. unfold hasAttribute. cbn [attributes].
  rewrite existsb_app. simpl. by rewrite orb_true_r.
Qed.

(** C3.  When the callback of the container's observer runs while the
    flag of its closure is true, it calls [scrollTo] once, with the
    content's height as target and behavior [auto]; afterwards the scroll
    position is the largest offset the container has at that moment, that
    is, with the changed content.  The flag is left as it was.  For
    instance, when the content of a viewport of 500 px grows to 1500 px
    while the flag is true, the position becomes 1000. *)
Theorem follow_when_at_bottom p k chat :
  chatHistoryEl p = Some chat ->
  0 <= clientHeight chat ->
  userIsAtBottom p !! k = Some true ->
  chatHistoryEl (onMutations k p) = Some (withScrollTop (maxScrollTop chat) chat)
  /\ position (onMutations k p) = Some (maxScrollTop chat)
  /\ scrollCalls (onMutations k p)
     = scrollCalls p ++ [{| top := scrollHeight chat; behavior := auto |}]
  /\ userIsAtBottom (onMutations k p) = userIsAtBottom p
  /\ position (step (Samples.pageAt 200 true) (ContentChanged 1500 200))
     = Some 1000.
Proof.
  intros Hchat Hc Hk. by rewrite (observer_follows p k chat Hchat Hc Hk).
Qed.

Lemma follow_when_at_bottom_witness :
  position (onMutations 0 (Samples.pageAt 200 true)) = Some 500.
Proof.
  refine (proj1 (proj2 (follow_when_at_bottom (Samples.pageAt 200 true) 0
                          (Samples.chatAt 200) _ _ _))).
  - reflexivity.
  - simpl. lia.
  - reflexivity.
Defined.

(** C4.  When the callback of the container's observer runs while the
    flag of its closure is false, it changes nothing: the scroll position
    stays and [scrollTo] is not called.  For instance, when the content
    of a viewport of 500 px grows to 1500 px while the flag is false and
    the position is 200, the position stays 200. *)
Theorem no_scroll_when_scrolled_up p k :
  userIsAtBottom p !! k = Some false ->
  onMutations k p = p
  /\ position (onMutations k p) = position p
  /\ scrollCalls (onMutations k p) = scrollCalls p
  /\ position (step (Samples.pageAt 200 false) (ContentChanged 1500 200))
     = Some 200
  /\ scrollCalls (step (Samples.pageAt 200 false) (ContentChanged 1500 200))
     = [].
Proof. intros Hk. unfold onMutations. by rewrite Hk. Qed.

Lemma no_scroll_when_scrolled_up_witness :
  position (onMutations 0 (Samples.pageAt 200 false)) = Some 200.
Proof.
  refine (proj1 (proj2 (no_scroll_when_scrolled_up (Samples.pageAt 200 false) 0 _))).
  reflexivity.
Defined.

(** C5.  The scroll listener sets the flag of its closure to the truth of
    [scrollHeight - scrollTop - clientHeight <= 5].  With 1000 px of
    content in a viewport of 500 px, a scroll event at position 495
    (distance 5) sets it to true and one at position 494 (distance 6)
    sets it to false. *)
Theorem threshold_inclusive p k chat :
  chatHistoryEl p = Some chat ->
  (k < length (userIsAtBottom p))%nat ->
  userIsAtBottom (onScroll k p) !! k
  = Some (bool_decide
            (scrollHeight chat - scrollTop chat - clientHeight chat <= 5))
  /\ userIsAtBottom (step (Samples.pageAt 0 false) (Scrolled 495)) = [true]
  /\ userIsAtBottom (step (Samples.pageAt 1000 true) (Scrolled 494)) = [false].
Proof.
  intros Hchat Hk. split; [|split; reflexivity].
  unfold onScroll. rewrite Hchat.
  assert (Hflag : forall q, userIsAtBottom q = <[k := isScrolledToBottom chat]> (userIsAtBottom p) ->
                            userIsAtBottom q !! k = Some (isScrolledToBottom chat)).
  { intros q ->. by apply list_lookup_insert_eq. }
  assert (Hdec : isScrolledToBottom chat
                 = bool_decide (scrollHeight chat - scrollTop chat
                                  - clientHeight chat <= 5)).
  { unfold isScrolledToBottom. case_bool_decide as H.
    - by apply Z.leb_le.
    - by apply Z.leb_gt; lia. }
  rewrite <- Hdec.
  destruct (isScrolledToBottom chat); [|destruct (scrollHeight chat >? clientHeight chat)];
    apply Hflag; unfold setDisplay, setFlag;
    cbn [scrollToBottomBtn]; by destruct (scrollToBottomBtn p).
Qed.

Lemma threshold_inclusive_witness :
  userIsAtBottom (onScroll 0 (Samples.pageAt 495 false)) !! 0%nat = Some true.
Proof.
  refine (proj1 (threshold_inclusive (Samples.pageAt 495 false) 0
                   (Samples.chatAt 495) _ _)).
  - reflexivity.
  - simpl. lia.
Defined.

(** A batch below the container, delivered while the last observer
    registered on it belongs to a closure whose flag is true. *)
Lemma batch_follows p k attrs sl mo ch0 cl h t :
  wiring p = (Some (attrs, sl, mo ++ [k], ch0), cl) ->
  marked p = true ->
  0 <= ch0 ->
  userIsAtBottom p !! k = Some true ->
  position (step p (ContentChanged h t)) = Some (Z.max 0 (h - ch0))
  /\ last (scrollCalls (step p (ContentChanged h t)))
     = Some {| top := h; behavior := auto |}.
Proof.
  intros Hw Hm Hc Hk. cbn [step].
  set (p2 := withGeometry h t p).
  assert (Hw2 : wiring p2 = (Some (attrs, sl, mo ++ [k], ch0), cl))
    by (subst p2; by rewrite wiring_withGeometry).
  assert (Hh2 : contentHeight p2 = Some h).
  { subst p2. unfold contentHeight, withGeometry.
    unfold wiring in Hw. destruct (chatHistoryEl p); [done | discriminate]. }
  assert (Hobs : listenersOf mutationObservers (chatHistoryEl p2) = mo ++ [k]).
  { unfold wiring in Hw2. destruct (chatHistoryEl p2); [|discriminate].
    simpl in *. congruence. }
  rewrite Hobs, fold_left_app. cbn [fold_left].
  set (q := fold_left (fun q j => onMutations j q) mo p2).
  assert (Hwq : wiring q = (Some (attrs, sl, mo ++ [k], ch0), cl)).
  { rewrite <- Hw2. subst q.
    apply (fold_left_kept _ wiring). intros; apply wiring_onMutations. }
  assert (Hhq : contentHeight q = Some h).
  { rewrite <- Hh2. subst q.
    apply (fold_left_kept _ contentHeight). intros; apply contentHeight_onMutations. }
  assert (Hfq : userIsAtBottom q !! k = Some true).
  { rewrite <- Hk. f_equal. subst q.
    rewrite (fold_left_kept _ userIsAtBottom); [|intros; apply flags_onMutations].
    subst p2. apply flags_withGeometry. }
  assert (Hmq : marked q = true).
  { rewrite <- Hm. apply marked_wiring. by rewrite Hwq, Hw. }
  destruct (chatHistoryEl q) as [cq|] eqn:Hcq; [|by unfold marked in Hmq; rewrite Hcq in Hmq].
  assert (Hch : clientHeight cq = ch0).
  { unfold wiring in Hwq. rewrite Hcq in Hwq. simpl in Hwq. congruence. }
  assert (Hsh : scrollHeight cq = h).
  { unfold contentHeight in Hhq. rewrite Hcq in Hhq. simpl in Hhq. congruence. }
  rewrite (observer_follows q k cq Hcq ltac:(lia) Hfq).
  rewrite setup_marked.
  - unfold position. cbn [chatHistoryEl scrollCalls option_map withScrollTop scrollTop].
    unfold maxScrollTop. rewrite Hch, Hsh. split; [done | apply last_snoc].
  - unfold marked in *. rewrite Hcq in Hmq. exact Hmq.
Qed.



(** C10.  The set-up creates the flag as true whatever the geometry of
    the container is.  As long as no scroll event has been delivered the
    flag stays true, so a batch below the container makes the observer
    call [scrollTo] with behavior [auto], and the position afterwards is
    the largest offset of the changed content, wherever the container was
    scrolled to before. *)
Theorem initial_flag_forces_follow p chat btn events h t :
  chatHistoryEl p = Some chat ->
  scrollToBottomBtn p = Some btn ->
  hasAttribute "data-scroll-handler" chat = false ->
  0 <= clientHeight chat ->
  forallb quiet events = true ->
  userIsAtBottom (setupScrollHandling p) !! length (userIsAtBottom p)
    = Some true
  /\ userIsAtBottom (run events (setupScrollHandling p))
       !! length (userIsAtBottom p) = Some true
  /\ position (step (run events (setupScrollHandling p)) (ContentChanged h t))
     = Some (Z.max 0 (h - clientHeight chat))
  /\ last (scrollCalls
             (step (run events (setupScrollHandling p)) (ContentChanged h t)))
     = Some {| top := h; behavior := auto |}.
Proof.
  intros Hchat Hbtn Hfree Hc Hq.
  destruct (setup_fresh p chat btn Hchat Hbtn Hfree) as (Hm & Hw & Hf & _).
  assert (Hk0 : userIsAtBottom (setupScrollHandling p)
                  !! length (userIsAtBottom p) = Some true).
  { rewrite Hf. by apply list_lookup_middle. }
  assert (Hk : userIsAtBottom (run events (setupScrollHandling p))
                 !! length (userIsAtBottom p) = Some true).
  { by rewrite flags_run. }
  split; [done|]. split; [done|].
  eapply batch_follows; [|  | exact Hc | exact Hk].
  - rewrite wiring_run by done. exact Hw.
  - rewrite <- Hm. by apply marked_wiring, wiring_run.
Qed.

Lemma initial_flag_forces_follow_witness :
  isScrolledToBottom (Samples.chatAt 0) = false
  /\ position (step (run [ContentChanged 1200 0; BodyChanged]
                       (setupScrollHandling Samples.freshPage))
                 (ContentChanged 1500 0))
     = Some 1000.
Proof.
  split; [reflexivity|].
  refine (proj1 (proj2 (proj2 (initial_flag_forces_follow Samples.freshPage
            {| attributes := ["id"]; scrollHeight := 1000; scrollTop := 0;
               clientHeight := 500; scrollListeners := [];
               mutationObservers := [] |}
            {| btnAttributes := ["id"]; display := "none";
               clickListeners := [] |}
            [ContentChanged 1200 0; BodyChanged] 1500 0 _ _ _ _ _)))).
  - reflexivity.
  - reflexivity.
  - reflexivity.
  - simpl. lia.
  - reflexivity.
Defined.

End ScrollFacts.

(** * More about the injector: what a scan never does *)

Module InjectorMore.
Import Dom Host Injector DomFacts InjectorFacts.



Section more.
Variable containers : list string.
Variable button : node.

Abbreviation injected := (Injector.injected containers button).
Abbreviation addCopyButtons := (Injector.addCopyButtons containers button).
Abbreviation codeBlocks := (Injector.codeBlocks containers).

Lemma preUnderEach_found a q : forall l k j y,
  l !! j = Some y ->
  In q (preUnder containers a y) ->
  In ((k + j) :: q) (preUnderEach containers a k l).
Proof.
  induction l as [|x xs IH]; intros k j y Hj Hq; [done|].
  simpl. rewrite in_app_iff. destruct j as [|j]; simpl in Hj.
  - injection Hj as ->. left. rewrite Nat.add_0_r. by apply in_map.
  - right. replace (k + S j) with (S k + j) by lia. by eapply IH.
Qed.

Lemma count_injected a l :
  length (List.filter isCopyButton (List.map (injected a) l))
  = length (List.filter isCopyButton l).
Proof.
  induction l as [|x xs IH]; simpl; [done|].
  rewrite isCopyButton_injected. destruct (isCopyButton x); simpl; by rewrite IH.
Qed.

(** A scan attaches nothing to an element that is not one of the code
    blocks, and nothing to one that already holds a control. *)
Lemma injected_keeps_count n : forall a p x,
  get n p = Some x ->
  ~ In p (preUnder containers a n) \/ hasCopyButton x = true ->
  affordanceCount (injected a n) p = Some (length (affordances x)).
Proof.
  unfold affordanceCount.
  induction n as [s|t i c ch IH] using node_ind; intros a p x.
  - destruct p as [|j q]; simpl; [by intros [= <-] | by destruct j].
  - destruct p as [|j q].
    + intros [= <-] Hwhy. cbn [get fmap option_fmap option_map]. f_equal.
      assert (Hno : a && String.eqb "pre" t
                    && negb (hasCopyButton (Elem t i c ch)) = false).
      { destruct Hwhy as [Hout| ->]; [|by rewrite andb_false_r].
        destruct (a && String.eqb "pre" t) eqn:Hsel; [|done].
        exfalso. apply Hout. rewrite preUnder_elem, Hsel. by left. }
      cbn [Injector.injected]. rewrite Hno.
      unfold affordances. cbn [childNodes]. apply count_injected.
    + cbn [get childNodes].
      destruct (ch !! j) as [y|] eqn:Hj; [|done]. intros Hq Hwhy.
      pose proof (childNodes_injected containers button a t i c ch j y Hj) as Hc.
      cbn [childNodes] in Hc. cbn [get]. rewrite Hc.
      rewrite Forall_lookup in IH. apply (IH j y Hj); [done|].
      destruct Hwhy as [Hout|Hhas]; [left | by right].
      intros Hin. apply Hout. rewrite preUnder_elem, in_app_iff. right.
      by apply (preUnderEach_found _ q ch 0 j y).
Qed.

(** Behind the handle of a code block a scan leaves the scanned block. *)
Lemma get_injected_block n : forall a p pre,
  In p (preUnder containers a n) ->
  get n p = Some pre ->
  hasTag "pre" pre = true /\ get (injected a n) p = Some (injected true pre).
Proof.
  induction n as [s|t i c ch IH] using node_ind; intros a p pre; [done|].
  rewrite preUnder_elem, in_app_iff. intros [Hself|Hbelow].
  - destruct (a && String.eqb "pre" t) eqn:Hsel; [|done].
    destruct Hself as [<-|[]]. intros [= <-].
    apply andb_true_iff in Hsel as [-> Ht]. by split.
  - destruct (preUnderEach_In _ _ _ _ _ Hbelow) as (j & x & q & -> & Hj & Hq).
    cbn [get Nat.add childNodes]. rewrite Hj. intros Hget.
    pose proof (childNodes_injected containers button a t i c ch j x Hj) as Hc.
    cbn [childNodes] in Hc. rewrite Hc.
    rewrite Forall_lookup in IH. by apply (IH j x Hj).
Qed.




End more.

Lemma get_mutate_below f p q : forall n x,
  get n p = Some x -> get (mutate f n (p ++ q)) p = Some (mutate f x q).
Proof.
  induction p as [|i p IH]; intros n x; simpl.
  - by intros [= ->].
  - destruct n as [s|t id c ch]; [done|]. cbn [childNodes].
    destruct (ch !! i) as [y|] eqn:Hi; [|done]. intros Hq.
    rewrite list_lookup_alter_eq, Hi. simpl. by apply IH.
Qed.

End InjectorMore.

(** * More about the copy buttons *)

Module CopyButtonsMore.
Import Dom Host Injector DomFacts InjectorFacts InjectorMore CopyButtons.

Lemma get_app p q : forall n,
  get n (p ++ q) = match get n p with Some x => get x q | None => None end.
Proof.
  induction p as [|i p IH]; intros n; simpl; [done|].
  destruct (childNodes n !! i); [apply IH | done].
Qed.

Lemma existsb_filter {A} (f : A -> bool) l :
  existsb f l = (0 <? length (List.filter f l))%nat.
Proof.
  induction l as [|x xs IH]; simpl; [done|]. by destruct (f x).
Qed.

(** The scanned form of a code block that came without a control. *)
Lemma scanned_block cs b doc p t i c ch :
  In p (Injector.codeBlocks cs doc) ->
  get doc p = Some (Elem t i c ch) ->
  hasCopyButton (Elem t i c ch) = false ->
  get (Injector.addCopyButtons cs b doc) p
  = Some (Elem t i c
            (List.map (Injector.injected cs b
                         (true || carriesOneOf cs (Elem t i c ch))) ch
             ++ [b])).
Proof.
  intros Hin Hget Hclean. rewrite addCopyButtons_injected.
  destruct (get_injected_block cs b doc false p _ Hin Hget) as [Ht ->].
  cbn [hasTag] in Ht. cbn [Injector.injected]. by rewrite Ht, Hclean.
Qed.







(** X4.  In the icon revision the control of a code block that came without
    one is its last child, and the payload of an activation is the same
    whether the control shows the copy icon or the check mark. *)
Theorem icon_payload_ignores_control_state doc p t i c ch :
  In p (IconVariant.codeBlocks doc) ->
  get doc p = Some (Elem t i c ch) ->
  hasCopyButton (Elem t i c ch) = false ->
  get (IconVariant.addCopyButtons doc) (p ++ [length ch])
  = Some IconVariant.button
  /\ IconVariant.activate
       (fst (IconVariant.settle fulfilled (IconVariant.addCopyButtons doc)
               (p ++ [length ch]))) p
     = IconVariant.activate (IconVariant.addCopyButtons doc) p.
Proof.
  intros Hin Hget Hclean.
  pose proof (scanned_block _ IconVariant.button doc p t i c ch Hin Hget Hclean)
    as Hpre.
  fold IconVariant.addCopyButtons in Hpre.
  set (ch' := List.map _ ch) in Hpre.
  assert (Hlen : length ch' = length ch) by (subst ch'; apply length_map).
  split.
  - rewrite get_app, Hpre. cbn [get childNodes].
    rewrite <- Hlen. by rewrite list_lookup_middle.
  - unfold IconVariant.activate.
    cbn [IconVariant.settle IconVariant.onFulfilled fst].
    rewrite (get_mutate_below _ p [length ch] _ _ Hpre), Hpre.
    cbn [fmap option_fmap option_map mutate]. unfold IconVariant.onClick.
    rewrite !querySelector_elem. rewrite <- Hlen.
    rewrite <- (Nat.add_0_r (length ch')), alter_app_r.
    cbn [alter list_alter]. rewrite !querySelectorIn_app.
    by destruct (querySelectorIn (hasTag "code") ch').
Qed.

Lemma icon_payload_ignores_control_state_witness :
  IconVariant.activate
    (fst (IconVariant.settle fulfilled
            (IconVariant.addCopyButtons Samples.highlighted) [0; 0; 1]))
    [0; 0]
  = IconVariant.activate (IconVariant.addCopyButtons Samples.highlighted)
      [0; 0].
Proof.
  refine (proj2 (icon_payload_ignores_control_state Samples.highlighted [0; 0]
            "pre" "" [] [Elem "code" "" [] [Text "print(1)"]] _ _ _)).
  - simpl. left. reflexivity.
  - reflexivity.
  - reflexivity.
Defined.

(** X5.  A scan attaches nothing to an element that is not one of the code
    blocks and nothing to a code block that already holds a control: the
    number of controls among its children is what it was.  This holds in
    both revisions. *)
Theorem scan_attaches_nothing_else doc p x :
  get doc p = Some x ->
  (~ In p (IconVariant.codeBlocks doc) \/ hasCopyButton x = true ->
   affordanceCount (IconVariant.addCopyButtons doc) p
   = Some (length (affordances x)))
  /\ (~ In p (TextVariant.codeBlocks doc) \/ hasCopyButton x = true ->
      affordanceCount (TextVariant.addCopyButtons doc) p
      = Some (length (affordances x))).
Proof.
  intros Hget. split; intros Hwhy.
  - unfold IconVariant.addCopyButtons. rewrite addCopyButtons_injected.
    by apply injected_keeps_count.
  - unfold TextVariant.addCopyButtons. rewrite addCopyButtons_injected.
    by apply injected_keeps_count.
Qed.

Lemma scan_attaches_nothing_else_witness :
  affordanceCount
    (IconVariant.addCopyButtons (IconVariant.addCopyButtons Samples.highlighted))
    [0; 0]
  = Some 1.
Proof.
  refine (proj1 (scan_attaches_nothing_else
            (IconVariant.addCopyButtons Samples.highlighted) [0; 0]
            (Elem "pre" "" []
               [Elem "code" "" [] [Text "print(1)"]; IconVariant.button]) _) _).
  - reflexivity.
  - right. reflexivity.
Defined.

(** X6.  In the icon revision a scan adds no text: the rendered text of the
    document, and of the element behind every handle, is what it was. *)
Theorem icon_scan_keeps_text doc p x :
  get doc p = Some x ->
  innerText (IconVariant.addCopyButtons doc) = innerText doc
  /\ innerText <$> get (IconVariant.addCopyButtons doc) p
     = Some (innerText x).
Proof.
  intros Hget. unfold IconVariant.addCopyButtons.
  rewrite addCopyButtons_injected. split.
  - by apply innerText_injected.
  - destruct (get_injected IconVariant.containers IconVariant.button p doc
                false x Hget) as [a ->].
    cbn [fmap option_fmap option_map]. f_equal. by apply innerText_injected.
Qed.

Lemma icon_scan_keeps_text_witness :
  innerText (IconVariant.addCopyButtons Samples.highlighted) = "print(1)".
Proof.
  refine (proj1 (icon_scan_keeps_text Samples.highlighted [0; 0]
            (Elem "pre" "" [] [Elem "code" "" [] [Text "print(1)"]]) _)).
  reflexivity.
Defined.

(** X7.  After the observer's callback has processed a batch with at least one
    record of type [childList] that has added nodes, every code block of
    the document it was given holds a control, and the code blocks are
    the same; a batch without such a record leaves the document as it is
    and calls the scan not at all.  This holds in both revisions. *)
Theorem batch_with_insertion_covers_blocks mutations doc p :
  (existsb qualifies mutations = true ->
   In p (IconVariant.codeBlocks doc) ->
   hasCopyButton <$> get (fst (IconVariant.onMutations mutations doc)) p
   = Some true
   /\ IconVariant.codeBlocks (fst (IconVariant.onMutations mutations doc))
      = IconVariant.codeBlocks doc)
  /\ (existsb qualifies mutations = true ->
      In p (TextVariant.codeBlocks doc) ->
      hasCopyButton <$> get (fst (TextVariant.onMutations mutations doc)) p
      = Some true
      /\ TextVariant.codeBlocks (fst (TextVariant.onMutations mutations doc))
         = TextVariant.codeBlocks doc)
  /\ (existsb qualifies mutations = false ->
      IconVariant.onMutations mutations doc = (doc, 0)
      /\ TextVariant.onMutations mutations doc = (doc, 0)).
Proof.
  unfold IconVariant.onMutations, TextVariant.onMutations.
  rewrite (onMutations_calls _ _ icon_button_marked icon_button_no_pre).
  rewrite (onMutations_calls _ _ text_button_marked text_button_no_pre).
  rewrite existsb_filter.
  split; [|split].
  - intros -> Hin. cbn [fst]. split.
    + destruct (addCopyButtons_has_button _ _ icon_button_marked doc p Hin)
        as (pre & -> & Hb). simpl. by rewrite Hb.
    + by apply codeBlocks_addCopyButtons, icon_button_no_pre.
  - intros -> Hin. cbn [fst]. split.
    + destruct (addCopyButtons_has_button _ _ text_button_marked doc p Hin)
        as (pre & -> & Hb). simpl. by rewrite Hb.
    + by apply codeBlocks_addCopyButtons, text_button_no_pre.
  - intros Hnone. rewrite Hnone.
    destruct (List.filter qualifies mutations); [done | discriminate].
Qed.

Lemma batch_with_insertion_covers_blocks_witness :
  hasCopyButton
    <$> get (fst (IconVariant.onMutations Samples.twoInsertions
                    Samples.highlighted)) [0; 0]
  = Some true.
Proof.
  refine (proj1 (proj1 (batch_with_insertion_covers_blocks
            Samples.twoInsertions Samples.highlighted [0; 0]) _ _)).
  - reflexivity.
  - simpl. left. reflexivity.
Defined.

End CopyButtonsMore.

(** * More about start-up: the container appears in time *)

Module BootstrapMore.
Import Dom Host IconVariant IconStart Bootstrap.

Lemma boot_absent env ready :
  getElementById "chat-history" (documentAt env 0) = None ->
  pendingRetry 1 (boot env ready).
Proof.
  intros Habsent. unfold boot, runTask, initializeObserver.
  cbn [script document retries observing attempts length].
  rewrite Habsent. cbn.
  repeat split. apply spaced_singleton.
Qed.

Lemma attempt_absent env j l :
  getElementById "chat-history" (documentAt env j) = None ->
  pendingRetry j l -> S j < maxRetries ->
  pendingRetry (S j) (run 1 env l).
Proof.
  intros Habsent (Hr & Ho & Hlen & Hc & Hs & Hlast & Hq) Hj.
  destruct l as [[d r o] t q times c]. cbn in Hr, Ho, Hlen, Hc, Hlast, Hq, Hs.
  subst r o c q.
  cbn [run nextTimer timers clock attempts script console fst snd].
  unfold runTask, initializeObserver.
  cbn [script document retries observing attempts timers clock console].
  rewrite Hlen, Habsent.
  set (now := Nat.max t (t + 100) + lag env j).
  assert (Hnow : t + 100 <= now) by (subst now; lia).
  assert (Hlt : (S j <? maxRetries)%nat = true) by by apply Nat.ltb_lt.
  rewrite Hlt. cbn [fold_left perform script clock timers attempts console app].
  repeat split; cbn [script retries observing attempts console clock timers].
  - rewrite length_app. simpl. lia.
  - by eapply spaced_snoc.
  - apply last_snoc.
Qed.

Lemma attempts_absent env n : forall i l,
  pendingRetry i l ->
  (forall k, i <= k < i + n ->
             getElementById "chat-history" (documentAt env k) = None) ->
  i + n < maxRetries ->
  pendingRetry (i + n) (run n env l).
Proof.
  induction n as [|n IH]; intros i l Hp Habsent Hlt.
  - by rewrite Nat.add_0_r.
  - change (S n) with (1 + n). rewrite run_add.
    replace (i + (1 + n)) with (S i + n) by lia.
    apply IH; [|intros k Hk; apply Habsent; lia | lia].
    apply attempt_absent; [apply Habsent; lia | done | lia].
Qed.

Lemma attempt_present env j l target :
  getElementById "chat-history" (documentAt env j) = Some target ->
  pendingRetry j l ->
  found env j (run 1 env l).
Proof.
  intros Hpresent (Hr & Ho & Hlen & Hc & Hs & Hlast & Hq).
  destruct l as [[d r o] t q times c]. cbn in Hr, Ho, Hlen, Hc, Hlast, Hq, Hs.
  subst r o c q.
  cbn [run nextTimer timers clock attempts script console fst snd].
  unfold runTask, initializeObserver.
  cbn [script document retries observing attempts timers clock console].
  rewrite Hlen, Hpresent.
  cbn [fold_left perform script clock timers attempts console app].
  repeat split; cbn [script document retries observing attempts console timers].
  - rewrite length_app. simpl. lia.
  - eapply spaced_snoc; [done..|]. lia.
Qed.

Lemma boot_present env ready target :
  getElementById "chat-history" (documentAt env 0) = Some target ->
  found env 0 (boot env ready).
Proof.
  intros Hpresent. unfold boot, runTask, initializeObserver.
  cbn [script document retries observing attempts length].
  rewrite Hpresent. cbn.
  repeat split. apply spaced_singleton.
Qed.

(** X8.  If the container is absent at the first [j] attempts and present at
    the next one, with [j < 20], the script looks for it [j + 1] times, at
    least 100 ms apart, then starts the observer and scans the document it
    found; it logs no error and leaves no timer behind, so nothing more
    happens however long the loop runs. *)
Theorem container_found_within_budget env ready j target fuel :
  (forall k, k < j ->
             getElementById "chat-history" (documentAt env k) = None) ->
  getElementById "chat-history" (documentAt env j) = Some target ->
  j < maxRetries ->
  j <= fuel ->
  found env j (run fuel env (boot env ready))
  /\ forall more,
       run more env (run fuel env (boot env ready))
       = run fuel env (boot env ready).
Proof.
  intros Habsent Hpresent Hj Hfuel.
  assert (Hfound : found env j (run j env (boot env ready))).
  { destruct j as [|j].
    - by eapply boot_present.
    - assert (Hrun : run (S j) env (boot env ready)
                     = run 1 env (run j env (boot env ready))).
      { replace (S j) with (j + 1) by lia. apply run_add. }
      rewrite Hrun.
      eapply attempt_present; [exact Hpresent|].
      change (S j) with (1 + j).
      apply attempts_absent; [|intros k Hk; apply Habsent; lia | lia].
      apply boot_absent, Habsent. lia. }
  replace fuel with (j + (fuel - j)) by lia. rewrite run_add.
  destruct Hfound as (Ho & Hd & Hlen & Hs & Hc & Hq).
  rewrite (run_quiescent _ _ _ Hq).
  split; [by repeat split|]. intros more. by apply run_quiescent.
Qed.

Lemma container_found_within_budget_witness :
  observing (script (run 5 MoreSamples.lateContainer
                       (boot MoreSamples.lateContainer 0))) = true
  /\ length (attempts (run 5 MoreSamples.lateContainer
                         (boot MoreSamples.lateContainer 0))) = 3.
Proof.
  destruct (proj1 (container_found_within_budget MoreSamples.lateContainer 0 2
                     (Elem "div" "chat-history" []
                        [Elem "div" "" ["highlight-container"]
                           [Elem "pre" "" []
                              [Elem "code" "" [] [Text "print(1)"]]]])
                     5
                     ltac:(intros [|[|k]] Hk; [reflexivity | reflexivity | lia])
                     ltac:(reflexivity)
                     ltac:(unfold maxRetries; lia)
                     ltac:(lia)))
    as (Ho & _ & Hlen & _).
  exact (conj Ho Hlen).
Defined.

End BootstrapMore.

(** * More about the scroll policy *)

Module ScrollMore.
Import Scroll ScrollView ScrollFacts.

Open Scope Z_scope.

Lemma chat_onScroll p k : chatHistoryEl (onScroll k p) = chatHistoryEl p.
Proof.
  unfold onScroll. destruct (chatHistoryEl p) as [c|] eqn:Hc; [|done].
  destruct (isScrolledToBottom c);
    [|destruct (scrollHeight c >? clientHeight c)];
    unfold setDisplay, setFlag; cbn [scrollToBottomBtn];
    by destruct (scrollToBottomBtn p).
Qed.

Lemma flags_onScroll p k c :
  chatHistoryEl p = Some c ->
  userIsAtBottom (onScroll k p)
  = <[k := isScrolledToBottom c]> (userIsAtBottom p).
Proof.
  intros Hc. unfold onScroll. rewrite Hc.
  destruct (isScrolledToBottom c);
    [|destruct (scrollHeight c >? clientHeight c)];
    unfold setDisplay, setFlag; cbn [scrollToBottomBtn];
    by destruct (scrollToBottomBtn p).
Qed.

Lemma display_onScroll p k c :
  chatHistoryEl p = Some c ->
  displayOf (onScroll k p) = option_map (shown c) (displayOf p).
Proof.
  intros Hc. unfold onScroll, displayOf, shown. rewrite Hc.
  destruct (isScrolledToBottom c);
    [|destruct (scrollHeight c >? clientHeight c)];
    unfold setDisplay, setFlag; cbn [scrollToBottomBtn];
    by destruct (scrollToBottomBtn p).
Qed.

Lemma scroll_listeners_flags c l : forall p,
  chatHistoryEl p = Some c ->
  userIsAtBottom (fold_left (fun q k => onScroll k q) l p)
  = fold_left (fun f k => <[k := isScrolledToBottom c]> f) l (userIsAtBottom p).
Proof.
  induction l as [|k l IH]; intros p Hc; simpl; [done|].
  rewrite IH by by rewrite chat_onScroll.
  by rewrite (flags_onScroll p k c).
Qed.

Lemma scroll_listeners_display c l : forall p,
  chatHistoryEl p = Some c -> l <> [] ->
  displayOf (fold_left (fun q k => onScroll k q) l p)
  = option_map (shown c) (displayOf p).
Proof.
  induction l as [|k l IH]; intros p Hc Hl; [done|]. simpl.
  destruct l as [|k' l].
  - simpl. by apply display_onScroll.
  - rewrite IH; [|by rewrite chat_onScroll | done].
    rewrite (display_onScroll p k c Hc).
    destruct (displayOf p) as [d|]; [|done]. simpl. f_equal.
    unfold shown. destruct (isScrolledToBottom c); [done|].
    by destruct (scrollHeight c >? clientHeight c).
Qed.

Lemma inserted_stays {A} (b : A) (l : list nat) : forall (f : list A) (k : nat),
  f !! k = Some b ->
  fold_left (fun f j => <[j := b]> f) l f !! k = Some b.
Proof.
  induction l as [|j l IH]; intros f k Hk; simpl; [done|].
  apply IH. destruct (decide (j = k)) as [->|Hne].
  - apply list_lookup_insert_eq. by eapply lookup_lt_Some.
  - by rewrite list_lookup_insert_ne.
Qed.

Lemma inserted_lookup {A} (b : A) (l : list nat) : forall (f : list A) (k : nat),
  In k l -> (k < length f)%nat ->
  fold_left (fun f j => <[j := b]> f) l f !! k = Some b.
Proof.
  induction l as [|j l IH]; intros f k Hin Hk; [done|]. simpl.
  destruct (decide (j = k)) as [->|Hne].
  - apply inserted_stays. by apply list_lookup_insert_eq.
  - destruct Hin as [Heq|Hin]; [done|].
    apply IH; [done|]. by rewrite length_insert.
Qed.

Lemma jump_listener c k p :
  chatHistoryEl p = Some c ->
  onClick k p
  = {| chatHistoryEl := chatHistoryEl p;
       scrollToBottomBtn := scrollToBottomBtn p;
       userIsAtBottom := userIsAtBottom p;
       timeouts := timeouts p;
       scrollCalls := scrollCalls p ++ [jumpRequest c] |}.
Proof. intros Hc. unfold onClick, scrollToBottom. by rewrite Hc. Qed.

Lemma jump_listeners c l : forall p,
  chatHistoryEl p = Some c ->
  fold_left (fun q k => onClick k q) l p
  = {| chatHistoryEl := chatHistoryEl p;
       scrollToBottomBtn := scrollToBottomBtn p;
       userIsAtBottom := userIsAtBottom p;
       timeouts := timeouts p;
       scrollCalls := scrollCalls p ++ repeat (jumpRequest c) (length l) |}.
Proof.
  induction l as [|k l IH]; intros p Hc; cbn [fold_left length repeat].
  - rewrite app_nil_r. by destruct p.
  - rewrite (jump_listener c k p Hc). rewrite IH by done.
    cbn [chatHistoryEl scrollToBottomBtn userIsAtBottom timeouts scrollCalls].
    by rewrite <- app_assoc.
Qed.

(** X9.  After a scroll event at a position that is not negative, the jump
    button is hidden if the viewer is within 5 px of the end and shown
    otherwise: away from the end the content is always scrollable, so the
    listener's second test never keeps the button as it was. *)
Theorem jump_button_shown_iff_away p c bt t :
  chatHistoryEl p = Some c ->
  scrollToBottomBtn p = Some bt ->
  scrollListeners c <> [] ->
  0 <= t ->
  displayOf (step p (Scrolled t))
  = Some (if bool_decide (scrollHeight c - t - clientHeight c <= 5)
          then "none" else "block").
Proof.
  intros Hc Hbt Hl Ht. cbn [step]. unfold withGeometry, currentHeight.
  rewrite Hc. cbn [chatHistoryEl listenersOf scrollListeners].
  erewrite scroll_listeners_display; [|reflexivity|exact Hl].
  unfold displayOf. cbn [scrollToBottomBtn]. rewrite Hbt. simpl. f_equal.
  unfold shown, isScrolledToBottom. cbn [scrollHeight scrollTop clientHeight].
  case_bool_decide as Hd.
  - by apply Z.leb_le in Hd as ->.
  - assert ((scrollHeight c - t - clientHeight c <=? 5) = false) as ->
      by (apply Z.leb_gt; lia).
    assert ((scrollHeight c >? clientHeight c) = true) as ->; [|done].
    apply Z.gtb_lt. lia.
Qed.

Lemma jump_button_shown_iff_away_witness :
  displayOf (step (Samples.pageAt 500 true) (Scrolled 100)) = Some "block".
Proof.
  refine (jump_button_shown_iff_away (Samples.pageAt 500 true)
            (Samples.chatAt 500)
            {| btnAttributes := ["id"]; display := "none";
               clickListeners := [0%nat] |} 100 _ _ _ _).
  - reflexivity.
  - reflexivity.
  - discriminate.
  - lia.
Defined.

(** X10.  A click on the jump button makes every click listener ask for one
    animated scroll to the height of the content and changes neither the
    position nor any flag; once the scroll event at the largest offset
    arrives, the flag of every closure listening for scroll events is
    true and the button is hidden, whatever the flag was before. *)
Theorem jump_converges p c bt k :
  chatHistoryEl p = Some c ->
  scrollToBottomBtn p = Some bt ->
  In k (scrollListeners c) ->
  (k < length (userIsAtBottom p))%nat ->
  scrollCalls (step p JumpClicked)
  = scrollCalls p ++ repeat (jumpRequest c) (length (clickListeners bt))
  /\ position (step p JumpClicked) = position p
  /\ userIsAtBottom (step p JumpClicked) = userIsAtBottom p
  /\ userIsAtBottom (step (step p JumpClicked) (Scrolled (maxScrollTop c)))
       !! k = Some true
  /\ displayOf (step (step p JumpClicked) (Scrolled (maxScrollTop c)))
     = Some "none".
Proof.
  intros Hc Hbt Hin Hk.
  assert (Hjump : step p JumpClicked
                  = {| chatHistoryEl := chatHistoryEl p;
                       scrollToBottomBtn := scrollToBottomBtn p;
                       userIsAtBottom := userIsAtBottom p;
                       timeouts := timeouts p;
                       scrollCalls :=
                         scrollCalls p
                         ++ repeat (jumpRequest c) (length (clickListeners bt)) |}).
  { cbn [step]. rewrite Hbt. cbn [listenersOf].
    rewrite (jump_listeners c _ p Hc). by rewrite Hbt. }
  rewrite Hjump. split; [done|]. split; [done|]. split; [done|].
  cbn [step]. unfold withGeometry, currentHeight.
  cbn [chatHistoryEl]. rewrite Hc. cbn [chatHistoryEl listenersOf scrollListeners].
  set (c' := {| attributes := attributes c; scrollHeight := scrollHeight c;
                scrollTop := maxScrollTop c; clientHeight := clientHeight c;
                scrollListeners := scrollListeners c;
                mutationObservers := mutationObservers c |}).
  assert (Hend : isScrolledToBottom c' = true).
  { unfold isScrolledToBottom. subst c'.
    cbn [scrollHeight scrollTop clientHeight]. apply Z.leb_le.
    unfold maxScrollTop. lia. }
  split.
  - rewrite (scroll_listeners_flags c') by done. rewrite Hend.
    by apply inserted_lookup.
  - rewrite (scroll_listeners_display c'); [|done|by destruct (scrollListeners c)].
    unfold displayOf, shown. cbn [scrollToBottomBtn]. rewrite Hbt, Hend. done.
Qed.

Lemma jump_converges_witness :
  userIsAtBottom
    (step (step (Samples.pageAt 0 false) JumpClicked) (Scrolled 500))
    !! 0%nat
  = Some true.
Proof.
  refine (proj1 (proj2 (proj2 (proj2
    (jump_converges (Samples.pageAt 0 false) (Samples.chatAt 0)
       {| btnAttributes := ["id"]; display := "none";
          clickListeners := [0%nat] |} 0 _ _ _ _))))).
  - reflexivity.
  - reflexivity.
  - simpl. left. reflexivity.
  - simpl. lia.
Defined.

Lemma filter_other_timeouts k (l : list (nat * nat)) :
  Forall (fun kd => (fst kd < k)%nat) l ->
  List.filter (fun kd => negb (Nat.eqb (fst kd) k)) l = l
  /\ existsb (fun kd => Nat.eqb (fst kd) k) l = false.
Proof.
  induction 1 as [|kd l Hkd _ [IH1 IH2]]; simpl; [done|].
  assert (Nat.eqb (fst kd) k = false) as -> by (apply Nat.eqb_neq; lia).
  simpl. by rewrite IH1, IH2.
Qed.

(** X11.  The timer that the set-up starts fires once: 200 ms after the set-up
    the container is scrolled at once to its largest offset; the flag is
    not written, and if the same timer were delivered again nothing would
    happen. *)
Theorem startup_scroll_fires_once p chat btn :
  chatHistoryEl p = Some chat ->
  scrollToBottomBtn p = Some btn ->
  hasAttribute "data-scroll-handler" chat = false ->
  0 <= clientHeight chat ->
  Forall (fun kd => (fst kd < length (userIsAtBottom p))%nat) (timeouts p) ->
  timeouts (setupScrollHandling p)
  = timeouts p ++ [(length (userIsAtBottom p), 200%nat)]
  /\ position (step (setupScrollHandling p)
                 (TimeoutElapsed (length (userIsAtBottom p))))
     = Some (maxScrollTop chat)
  /\ scrollCalls (step (setupScrollHandling p)
                    (TimeoutElapsed (length (userIsAtBottom p))))
     = scrollCalls p ++ [{| top := scrollHeight chat; behavior := auto |}]
  /\ userIsAtBottom (step (setupScrollHandling p)
                       (TimeoutElapsed (length (userIsAtBottom p))))
     = userIsAtBottom p ++ [true]
  /\ timeouts (step (setupScrollHandling p)
                 (TimeoutElapsed (length (userIsAtBottom p))))
     = timeouts p
  /\ step (step (setupScrollHandling p)
             (TimeoutElapsed (length (userIsAtBottom p))))
       (TimeoutElapsed (length (userIsAtBottom p)))
     = step (setupScrollHandling p)
         (TimeoutElapsed (length (userIsAtBottom p))).
Proof.
  intros Hchat Hbtn Hfree Hc Hold.
  destruct (filter_other_timeouts _ _ Hold) as [Hfilter Hnone].
  set (k := length (userIsAtBottom p)) in *.
  unfold setupScrollHandling. rewrite Hchat, Hbtn, Hfree. fold k.
  split; [done|].
  cbn [step timeouts]. rewrite existsb_app. cbn [existsb fst].
  rewrite Nat.eqb_refl. cbn [orb]. rewrite orb_true_r.
  unfold onTimeout, dropTimeout, scrollToBottom.
  cbn [chatHistoryEl scrollToBottomBtn userIsAtBottom timeouts scrollCalls].
  rewrite List.filter_app, Hfilter. cbn [List.filter fst].
  rewrite Nat.eqb_refl. cbn [negb]. rewrite app_nil_r.
  unfold scrollTo. cbn [behavior top scrollHeight].
  unfold position.
  cbn [chatHistoryEl option_map scrollTop withScrollTop userIsAtBottom
       timeouts scrollCalls existsb].
  rewrite Hnone.
  unfold maxScrollTop. cbn [scrollHeight clientHeight].
  repeat split; try done. f_equal. lia.
Qed.

Lemma startup_scroll_fires_once_witness :
  position (step (setupScrollHandling Samples.freshPage) (TimeoutElapsed 0))
  = Some 500.
Proof.
  refine (proj1 (proj2 (startup_scroll_fires_once Samples.freshPage
            {| attributes := ["id"]; scrollHeight := 1000; scrollTop := 0;
               clientHeight := 500; scrollListeners := [];
               mutationObservers := [] |}
            {| btnAttributes := ["id"]; display := "none";
               clickListeners := [] |} _ _ _ _ _))).
  - reflexivity.
  - reflexivity.
  - reflexivity.
  - simpl. lia.
  - constructor.
Defined.

(** X12.  The set-up changes the page exactly when both elements are there and
    the container does not carry the marker; in every other case (an
    element missing, or the marker set) it returns the page as it is.
    Calling it twice in a row is the same as calling it once. *)
Theorem setup_only_when_needed p :
  setupScrollHandling (setupScrollHandling p) = setupScrollHandling p
  /\ (setupScrollHandling p = p <->
      chatHistoryEl p = None \/ scrollToBottomBtn p = None
      \/ marked p = true).
Proof.
  destruct (chatHistoryEl p) as [chat|] eqn:Hchat.
  2:{ assert (Hid : setupScrollHandling p = p)
        by (unfold setupScrollHandling; by rewrite Hchat).
      rewrite !Hid. split; [done|]. split; [by left | done]. }
  destruct (scrollToBottomBtn p) as [btn|] eqn:Hbtn.
  2:{ assert (Hid : setupScrollHandling p = p)
        by (unfold setupScrollHandling; by rewrite Hchat, Hbtn).
      rewrite !Hid. split; [done|]. split; [by right; left | done]. }
  destruct (hasAttribute "data-scroll-handler" chat) eqn:Hm.
  - assert (Hmarked : marked p = true) by (unfold marked; by rewrite Hchat).
    rewrite !(setup_marked p Hmarked).
    split; [done|]. split; [by right; right | done].
  - destruct (setup_fresh p chat btn Hchat Hbtn Hm) as (Hm' & _ & Hf & _).
    split; [by apply setup_marked|]. split.
    + intros Heq. rewrite Heq in Hf.
      apply (f_equal length) in Hf. rewrite length_app in Hf. simpl in Hf. lia.
    + intros [H|[H|H]]; [done | done |].
      unfold marked in H. rewrite Hchat in H. congruence.
Qed.

End ScrollMore.

(** * The textarea script *)

Module TextareaFacts.
Import Textarea.

Open Scope Z_scope.

Lemma hasMarker_added m attrs : hasMarker m (attrs ++ [m]) = true.
Proof.
  unfold hasMarker. rewrite existsb_app. simpl.
  by rewrite String.eqb_refl, orb_true_r.
Qed.

Lemma wiring_withHeight h p : wiring (withHeight h p) = wiring p.
Proof.
  unfold withHeight, wiring.
  destruct (textarea p) as [ta|] eqn:H; [done | by rewrite H].
Qed.

Lemma wiring_withContent h p : wiring (withContent h p) = wiring p.
Proof.
  unfold withContent, wiring.
  destruct (textarea p) as [ta|] eqn:H; [done | by rewrite H].
Qed.

Lemma wiring_onInput p : wiring (onInput p) = wiring p.
Proof.
  unfold onInput. destruct (textarea p); [|done].
  by rewrite !wiring_withHeight.
Qed.

Lemma wiring_inputs n p : wiring (Nat.iter n onInput p) = wiring p.
Proof. induction n as [|n IH]; simpl; [done|]. by rewrite wiring_onInput. Qed.

Lemma send_listeners l : forall p,
  fold_left onSendClick l p
  = {| textarea := textarea p; sendButton := sendButton p;
       timeouts := timeouts p ++ List.map (fun found => (found, 50%nat)) l;
       prevented := prevented p; clicks := clicks p |}.
Proof.
  induction l as [|b l IH]; intros p; simpl.
  - rewrite app_nil_r. by destruct p.
  - rewrite IH. unfold onSendClick. simpl. by rewrite <- app_assoc.
Qed.

Lemma wiring_dispatchClick p : wiring (dispatchClick p) = wiring p.
Proof.
  unfold dispatchClick. destruct (sendButton p) as [b|] eqn:H; [|done].
  by rewrite send_listeners.
Qed.

Lemma clicks_dispatchClick p : clicks (dispatchClick p) = clicks p.
Proof.
  unfold dispatchClick. destruct (sendButton p) as [b|] eqn:H; [|done].
  by rewrite send_listeners.
Qed.

Lemma wiring_onKeyDown key s c p found :
  wiring (onKeyDown key s c p found) = wiring p.
Proof.
  unfold onKeyDown. destruct (String.eqb key "Enter" && negb s && negb c); [|done].
  destruct found; [|done]. by rewrite wiring_dispatchClick.
Qed.

Lemma wiring_keys key s c l : forall p,
  wiring (fold_left (onKeyDown key s c) l p) = wiring p.
Proof.
  induction l as [|b l IH]; intros p; simpl; [done|].
  by rewrite IH, wiring_onKeyDown.
Qed.

Lemma wiredOnce_wiring p q : wiring p = wiring q -> wiredOnce p -> wiredOnce q.
Proof.
  unfold wiring, wiredOnce. intros [= Ht Hb].
  destruct (textarea p) as [ta|], (textarea q) as [ta'|]; simpl in Ht; try done;
    destruct (sendButton p) as [b|], (sendButton q) as [b'|]; simpl in Hb;
    try done.
  - injection Ht as -> -> ->. by injection Hb as -> ->.
  - by injection Ht as -> -> ->.
  - by injection Hb as -> ->.
Qed.

(** After the set-up every element that is there is marked and carries
    one listener of each kind, if it carried no more than that before. *)
Lemma wiredOnce_setup p :
  wiredOnce p ->
  wiredOnce (setupEventListeners p)
  /\ match textarea (setupEventListeners p) with
     | Some ta => inputListeners ta = 1%nat
                  /\ length (keydownListeners ta) = 1%nat
     | None => True
     end
  /\ match sendButton (setupEventListeners p) with
     | Some b => length (clickListeners b) = 1%nat
     | None => True
     end.
Proof.
  unfold wiredOnce, setupEventListeners. intros [Ht Hb].
  cbn [textarea sendButton].
  assert (Hta :
    match
      match textarea p with
      | Some ta =>
          if hasMarker "data-textarea-listeners" (attributes ta) then Some ta
          else Some {| attributes := attributes ta ++ ["data-textarea-listeners"];
                       height := height ta; contentHeight := contentHeight ta;
                       inputListeners := S (inputListeners ta);
                       keydownListeners :=
                         keydownListeners ta ++ [isSome (sendButton p)] |}
      | None => None
      end
    with
    | Some ta =>
        hasMarker "data-textarea-listeners" (attributes ta) = true
        /\ inputListeners ta = 1%nat /\ length (keydownListeners ta) = 1%nat
    | None => True
    end).
  { destruct (textarea p) as [ta|]; [|done].
    destruct (hasMarker "data-textarea-listeners" (attributes ta)) eqn:Hm.
    - by rewrite Hm.
    - cbn [attributes inputListeners keydownListeners].
      destruct Ht as [-> ->]. by rewrite hasMarker_added. }
  assert (Hbt :
    match
      match sendButton p with
      | Some b =>
          if hasMarker "data-send-button-listener" (btnAttributes b)
          then Some b
          else Some {| btnAttributes :=
                         btnAttributes b ++ ["data-send-button-listener"];
                       clickListeners :=
                         clickListeners b ++ [isSome (textarea p)] |}
      | None => None
      end
    with
    | Some b =>
        hasMarker "data-send-button-listener" (btnAttributes b) = true
        /\ length (clickListeners b) = 1%nat
    | None => True
    end).
  { destruct (sendButton p) as [b|]; [|done].
    destruct (hasMarker "data-send-button-listener" (btnAttributes b)) eqn:Hm.
    - by rewrite Hm.
    - cbn [btnAttributes clickListeners]. rewrite Hb.
      by rewrite hasMarker_added. }
  destruct (match textarea p with Some _ => _ | None => _ end) as [ta'|];
    destruct (match sendButton p with Some _ => _ | None => _ end) as [b'|].
  - destruct Hta as (-> & ? & ?), Hbt as (-> & ?). done.
  - destruct Hta as (-> & ? & ?). done.
  - destruct Hbt as (-> & ?). done.
  - done.
Qed.

Lemma wiredOnce_step p e : wiredOnce p -> wiredOnce (step p e).
Proof.
  intros Hw. destruct e as [h|key s c| | | |h|]; cbn [step].
  - destruct (textarea p) as [ta|] eqn:Hta; [|done].
    eapply wiredOnce_wiring; [|exact Hw].
    by rewrite wiring_inputs, wiring_withContent.
  - destruct (textarea p) as [ta|] eqn:Hta; [|done].
    eapply wiredOnce_wiring; [|exact Hw]. by rewrite wiring_keys.
  - eapply wiredOnce_wiring; [|exact Hw]. by rewrite wiring_dispatchClick.
  - destruct (timeouts p) as [|[found d] rest] eqn:Hq; [done|].
    eapply wiredOnce_wiring; [|exact Hw].
    unfold onTimeout. destruct found; by rewrite ?wiring_withHeight.
  - by apply wiredOnce_setup.
  - destruct (textarea p) as [ta|] eqn:Hta; [done|].
    unfold wiredOnce in *. rewrite Hta in Hw. cbn [textarea sendButton].
    by destruct Hw.
  - destruct (sendButton p) as [b|] eqn:Hb; [done|].
    unfold wiredOnce in *. rewrite Hb in Hw. cbn [textarea sendButton].
    by destruct Hw.
Qed.

Lemma wiredOnce_run events : forall p, wiredOnce p -> wiredOnce (run events p).
Proof.
  unfold run. induction events as [|e events IH]; intros p Hw; simpl; [done|].
  by apply IH, wiredOnce_step.
Qed.

(** X13.  Whatever the host delivers (typing, keys, clicks, timers, batches on
    which the set-up runs again, the elements being built), no element
    ever carries more than one listener of a kind; and after the set-up
    has run once more every element that is there carries exactly one. *)
Theorem textarea_listeners_registered_once p events :
  wiredOnce p ->
  wiredOnce (run events p)
  /\ match textarea (step (run events p) BodyChanged) with
     | Some ta => inputListeners ta = 1%nat
                  /\ length (keydownListeners ta) = 1%nat
     | None => True
     end
  /\ match sendButton (step (run events p) BodyChanged) with
     | Some b => length (clickListeners b) = 1%nat
     | None => True
     end.
Proof.
  intros Hw. pose proof (wiredOnce_run events p Hw) as Hr.
  split; [done|]. by apply wiredOnce_setup.
Qed.

Lemma textarea_listeners_registered_once_witness :
  wiredOnce (run [TextareaAdded 20; BodyChanged; SendButtonAdded; BodyChanged;
                  Typed 40; BodyChanged] blank).
Proof.
  refine (proj1 (textarea_listeners_registered_once blank
            [TextareaAdded 20; BodyChanged; SendButtonAdded; BodyChanged;
             Typed 40; BodyChanged] _)).
  split; exact I.
Defined.

(** The set-up of the textarea script is idempotent on every page. *)
Lemma textarea_setup_idempotent p :
  setupEventListeners (setupEventListeners p) = setupEventListeners p.
Proof.
  unfold setupEventListeners. cbn [textarea sendButton timeouts prevented clicks].
  f_equal.
  - destruct (textarea p) as [ta|]; [|done].
    destruct (hasMarker "data-textarea-listeners" (attributes ta)) eqn:Hm.
    + by rewrite Hm.
    + cbn [attributes]. by rewrite hasMarker_added.
  - destruct (sendButton p) as [b|]; [|done].
    destruct (hasMarker "data-send-button-listener" (btnAttributes b)) eqn:Hm.
    + by rewrite Hm.
    + cbn [btnAttributes]. by rewrite hasMarker_added.
Qed.



Lemma lateButton_wiring p q : wiring p = wiring q -> lateButton p -> lateButton q.
Proof.
  unfold wiring, lateButton. intros [= Ht _] (ta & Hta & Hm & Hk).
  rewrite Hta in Ht. destruct (textarea q) as [ta'|]; [|done].
  simpl in Ht. injection Ht as Ha _ Hk'. exists ta'. by rewrite <- Ha, <- Hk'.
Qed.

Lemma lateButton_step p e :
  lateButton p -> lateButton (step p e) /\ clicks (step p e) = clicks p.
Proof.
  intros Hl. pose proof Hl as (ta & Hta & Hm & Hk).
  destruct e as [h|key s c| | | |h|]; cbn [step]; rewrite ?Hta.
  - split.
    + eapply lateButton_wiring; [|exact Hl].
      by rewrite wiring_inputs, wiring_withContent.
    + generalize (inputListeners ta). intros n.
      assert (Hc : forall q, clicks (onInput q) = clicks q).
      { intros q. unfold onInput, withHeight.
        destruct (textarea q); by simpl. }
      induction n as [|n IH]; simpl.
      * unfold withContent. by rewrite Hta.
      * by rewrite Hc.
  - rewrite Hk. cbn [fold_left]. split.
    + eapply lateButton_wiring; [|exact Hl]. by rewrite wiring_onKeyDown.
    + unfold onKeyDown.
      by destruct (String.eqb key "Enter" && negb s && negb c).
  - split; [|apply clicks_dispatchClick].
    eapply lateButton_wiring; [|exact Hl]. by rewrite wiring_dispatchClick.
  - destruct (timeouts p) as [|[found d] rest] eqn:Hq; [done|].
    unfold onTimeout. split.
    + eapply lateButton_wiring; [|exact Hl].
      destruct found; rewrite ?wiring_withHeight; unfold wiring;
        cbn [textarea sendButton]; by rewrite Hta.
    + by destruct found.
  - split; [|done]. unfold setupEventListeners, lateButton. cbn [textarea].
    rewrite Hta, Hm. by exists ta.
  - done.
  - split; [|by destruct (sendButton p)].
    destruct (sendButton p); [done|]. by exists ta.
Qed.

(** X15.  If the set-up runs while the textarea is there and the send button
    is not, the keydown listener it registers never clicks a button:
    whatever happens later (the button being built, the set-up running
    again, Enter being pressed), [sendButton.click()] is not called. *)
Theorem enter_never_clicks_a_late_button attrs h events :
  hasMarker "data-textarea-listeners" attrs = false ->
  clicks (run events (setupEventListeners (builtWithoutButton attrs h)))
  = 0%nat.
Proof.
  intros Hfree.
  assert (Hstart : lateButton (setupEventListeners (builtWithoutButton attrs h))).
  { unfold setupEventListeners, builtWithoutButton, lateButton, newTextarea.
    cbn [textarea sendButton attributes]. rewrite Hfree.
    eexists. split; [done|]. cbn [attributes keydownListeners app isSome].
    by rewrite hasMarker_added. }
  assert (Hzero : clicks (setupEventListeners (builtWithoutButton attrs h)) = 0%nat)
    by done.
  revert Hstart Hzero.
  generalize (setupEventListeners (builtWithoutButton attrs h)). unfold run.
  induction events as [|e events IH]; intros p Hl Hz; simpl; [done|].
  destruct (lateButton_step p e Hl) as [Hl' Hc]. apply IH; [done|].
  by rewrite Hc.
Qed.

Lemma enter_never_clicks_a_late_button_witness :
  clicks (run [SendButtonAdded; BodyChanged; KeyDown "Enter" false false]
            (setupEventListeners (builtWithoutButton ["id"] 20))) = 0%nat
  /\ prevented (run [SendButtonAdded; BodyChanged; KeyDown "Enter" false false]
                  (setupEventListeners (builtWithoutButton ["id"] 20)))
     = 1%nat.
Proof.
  split; [|reflexivity].
  refine (enter_never_clicks_a_late_button ["id"] 20
            [SendButtonAdded; BodyChanged; KeyDown "Enter" false false] _).
  reflexivity.
Defined.

End TextareaFacts.
